(** * Portfolio API: a shallow embedding of [main.py] and [schemas.py]

    The development follows the layers of the program:
    - Python values, dictionaries and exceptions as the handlers use them;
    - the storage access layer ([database.py], which the handlers import);
    - the [ContactMessage] schema and its validation;
    - the handlers of [main.py]: [serialize_doc], [test_database], the list
      endpoints, [get_blog], [contact], [github_stats] and [github_repos].

    Python [int] is unbounded, hence [Z].  A [dict] with string keys is a
    [gmap string pyval].  A Python [str] is a [string] holding the UTF-8
    encoding of the text; where the program counts characters (the slice
    [s[:80]] of [test_database]) the model counts code points, not bytes.
    JSON numbers are integers here: the program only reads counters
    ([followers], [stargazers_count], ...). *)

From stdpp Require Import gmap strings list fin_maps pretty.

#[local] Set Warnings "-register-all".
#[local] Open Scope Z_scope.

(** ** Python values *)

Inductive pyval :=
| PNone
| PBool (b : bool)
| PInt (n : Z)
| PStr (s : string)
| PList (l : list pyval)
| PDict (d : gmap string pyval)
| PObjectId (hex : string).

#[global] Instance pyval_eq_dec : EqDecision pyval.
Proof.
  refine (fix go (x y : pyval) {struct x} : Decision (x = y) :=
    let _ : EqDecision pyval := @go in
    match x, y with
    | PNone, PNone => left _
    | PBool a, PBool b => cast_if (decide (a = b))
    | PInt a, PInt b => cast_if (decide (a = b))
    | PStr a, PStr b => cast_if (decide (a = b))
    | PList a, PList b => cast_if (decide (a = b))
    | PDict a, PDict b => cast_if (decide (a = b))
    | PObjectId a, PObjectId b => cast_if (decide (a = b))
    | _, _ => right _
    end); abstract congruence.
Defined.

(** Truth value of [os.getenv(...)]: [None] and the empty string are false. *)
Definition truthy_str (o : option string) : bool :=
  match o with
  | Some (String _ _) => true
  | _ => false
  end.

(** [x or y] on an optional string. *)
Definition str_or (o : option string) (y : string) : string :=
  match o with
  | Some (String _ _ as s) => s
  | _ => y
  end.

(** A byte [10xxxxxx] continues the code point begun by an earlier byte. *)
Definition is_continuation (c : Ascii.ascii) : bool :=
  let b := Ascii.nat_of_ascii c in
  (128 <=? b)%nat && (b <? 192)%nat.

(** The slice [s[:n]]: the first [n] code points of the text, each with all
    the bytes of its encoding. *)
Fixpoint str_take (n : nat) (s : string) : string :=
  match s with
  | EmptyString => EmptyString
  | String c s' =>
      if is_continuation c then String c (str_take n s')
      else
        match n with
        | O => EmptyString
        | S n' => String c (str_take n' s')
        end
  end.

(** [len(s)]: the number of code points of the text. *)
Fixpoint str_len (s : string) : nat :=
  match s with
  | EmptyString => O
  | String c s' => if is_continuation c then str_len s' else S (str_len s')
  end.

(** ** Exceptions and results *)

(** An exception of the database driver: its class and [str(e)]. *)
Record pyexc := PyExc { exc_class : string; exc_str : string }.

(** The kinds of field violation a [ValidationError] reports. *)
Inductive violation := Missing | WrongType | MalformedEmail.

Record field_error := FieldError { err_loc : string; err_kind : violation }.

(** What a handler can raise: [HTTPException(status_code, detail)], the
    framework's rejection of a request body, or any other exception, which
    the framework answers with a server error. *)
Inductive error :=
| HTTPException (status_code : Z) (detail : string)
| RequestValidationError (errors : list field_error)
| Unhandled (exc_class : string).

Inductive result (A : Type) :=
| Ok (a : A)
| Raise (e : error).
Arguments Ok {A} a.
Arguments Raise {A} e.

#[global] Instance result_ret : MRet result := λ A a, Ok a.
#[global] Instance result_bind : MBind result := λ A B f m,
  match m with
  | Ok a => f a
  | Raise e => Raise e
  end.

(** The status line the framework sends for a handler's outcome. *)
Definition http_status {A} (r : result A) : Z :=
  match r with
  | Ok _ => 200
  | Raise (HTTPException s _) => s
  | Raise (RequestValidationError _) => 422
  | Raise (Unhandled _) => 500
  end.

(** ** Operations on values *)

(** [v.get(k, dflt)]: only a dict has the method. *)
Definition py_get (v : pyval) (k : string) (dflt : pyval) : result pyval :=
  match v with
  | PDict d => Ok (default dflt (d !! k))
  | _ => Raise (Unhandled "AttributeError")
  end.

(** The elements [for r in v] visits: the items of a list, the keys of a
    dict, the characters of a str; other values are not iterable. *)
Definition py_iter (v : pyval) : result (list pyval) :=
  match v with
  | PList l => Ok l
  | PDict d => Ok (PStr <$> (map_to_list d).*1)
  | PStr s => Ok ((λ c, PStr (String c EmptyString)) <$> String.list_ascii_of_string s)
  | _ => Raise (Unhandled "TypeError")
  end.

(** [[f(x) for x in xs]] where [f] may raise. *)
Fixpoint comprehension {A B} (f : A → result B) (xs : list A) : result (list B) :=
  match xs with
  | [] => Ok []
  | x :: xs => y ← f x; ys ← comprehension f xs; Ok (y :: ys)
  end.

(** ** HTTP exchange with the upstream *)

Record Request := MkRequest {
  url : string;
  headers : gmap string string;
  timeout : Z
}.

#[global] Instance Request_eq_dec : EqDecision Request.
Proof. solve_decision. Defined.

(** [resp_json] is the outcome of [Response.json()]: [None] when the body is
    not JSON and the call raises. *)
Record Response := MkResponse {
  resp_status : Z;
  resp_text : string;
  resp_json : option pyval
}.

(** [requests.get] either returns a response or raises (connection error,
    timeout). *)
Inductive fetch :=
| Responded (r : Response)
| Failed (exc_class : string).

(** A handler that talks to the upstream: it threads the log of the requests
    sent so far and ends with a value or an exception. *)
Definition IO (A : Type) : Type := list Request → result A * list Request.

#[global] Instance IO_ret : MRet IO := λ A a log, (Ok a, log).
#[global] Instance IO_bind : MBind IO := λ A B f m log,
  match m log with
  | (Ok a, log') => f a log'
  | (Raise e, log') => (Raise e, log')
  end.

Definition io_raise {A} (e : error) : IO A := λ log, (Raise e, log).

Definition io_lift {A} (r : result A) : IO A := λ log, (r, log).

Definition json_of (r : Response) : result pyval :=
  match resp_json r with
  | Some v => Ok v
  | None => Raise (Unhandled "JSONDecodeError")
  end.

Definition GITHUB_API : string := "https://api.github.com".

(** ** Response-building state for [test_database] *)

(** The body of [test_database] mutates the [response] dict and may be
    interrupted by an exception; the dict keeps what was written before. *)
Definition Build (A : Type) : Type :=
  gmap string pyval → (pyexc + A) * gmap string pyval.

#[global] Instance Build_ret : MRet Build := λ A a resp, (inr a, resp).
#[global] Instance Build_bind : MBind Build := λ A B f m resp,
  match m resp with
  | (inr a, resp') => f a resp'
  | (inl e, resp') => (inl e, resp')
  end.

(** [response[k] = v] *)
Definition setitem (k : string) (v : pyval) : Build unit :=
  λ resp, (inr tt, <[k := v]> resp).

(** A call into the driver. *)
Definition call {A} (r : pyexc + A) : Build A := λ resp, (r, resp).

(** [try: body except Exception as e: handler(e)] *)
Definition try_except {A} (body : Build A) (handler : pyexc → Build A) : Build A :=
  λ resp,
    match body resp with
    | (inr a, resp') => (inr a, resp')
    | (inl e, resp') => handler e resp'
    end.

(** The handle [db] that [database.py] exports: the one method
    [test_database] calls either returns the collection names or raises. *)
Record Database := MkDatabase {
  list_collection_names : pyexc + list string
}.

(** ** Storage access layer *)

(** Modelled from the spec: [database.py] is imported by [main.py] and is not
    among the sources.  The store "maps a collection name string to an
    underlying document store"; documents are kept in insertion order, the
    natural order the spec allows. *)
Record store := MkStore {
  collections : gmap string (list (gmap string pyval));
  next_id : N
}.

(** An equality filter on zero or more fields. *)
Definition matches (flt d : gmap string pyval) : Prop :=
  map_Forall (λ k v, d !! k = Some v) flt.

#[global] Instance matches_dec flt d : Decision (matches flt d).
Proof. unfold matches. apply _. Defined.

Definition collection (st : store) (name : string) : list (gmap string pyval) :=
  default [] (collections st !! name).

(** Modelled from the spec: [get_documents] of [database.py], the spec's
    "query(collectionName, filter, limit) -> list of documents: returns up
    to limit documents matching an equality filter (on zero or more fields),
    in the store's natural order ...  A missing/absent collection returns an
    empty list, never an error." *)
Definition get_documents (st : store) (collection_name : string)
    (flt : gmap string pyval) (limit : Z) : list (gmap string pyval) :=
  take (Z.to_nat limit) (filter (matches flt) (collection st collection_name)).

(** Modelled from the spec: [create_document] of [database.py], the spec's
    "create(collectionName, validatedDocument) -> identifier: persists the
    document, assigns a unique identifier, returns it.  Fails with
    StorageUnavailable if the underlying store cannot be reached".  The
    identifier is stamped by the storage layer under the internal field
    [_id]; [db] is [None] when the store cannot be reached. *)
Definition create_document (db : option store) (collection_name : string)
    (data : gmap string pyval) : result string * option store :=
  match db with
  | None => (Raise (Unhandled "StorageUnavailable"), None)
  | Some st =>
      let _id := pretty (next_id st) in
      let stored := <["_id" := PObjectId _id]> data in
      (Ok _id,
       Some {| collections :=
                 <[collection_name := collection st collection_name ++ [stored]]>
                   (collections st);
               next_id := N.succ (next_id st) |})
  end.

(** ** Schemas *)

(** [class ContactMessage(BaseModel)] *)
Record ContactMessage := MkContactMessage {
  cm_name : string;
  cm_email : string;
  cm_message : string;
  cm_subject : option string;
  cm_source : option string
}.

Definition opt_str (o : option string) : pyval :=
  match o with
  | Some s => PStr s
  | None => PNone
  end.

(** The document a validated [ContactMessage] is stored as. *)
Definition ContactMessage_dump (m : ContactMessage) : gmap string pyval :=
  {[ "name" := PStr (cm_name m);
     "email" := PStr (cm_email m);
     "message" := PStr (cm_message m);
     "subject" := opt_str (cm_subject m);
     "source" := opt_str (cm_source m) ]}.

(** A field declared [f: str]. *)
Definition required_str (payload : gmap string pyval) (f : string)
    : list field_error + string :=
  match payload !! f with
  | None => inl [FieldError f Missing]
  | Some (PStr s) => inr s
  | Some _ => inl [FieldError f WrongType]
  end.

(** A field declared [f: Optional[str] = None]. *)
Definition optional_str (payload : gmap string pyval) (f : string)
    : list field_error + option string :=
  match payload !! f with
  | None | Some PNone => inr None
  | Some (PStr s) => inr (Some s)
  | Some _ => inl [FieldError f WrongType]
  end.

Definition violations {A} (r : list field_error + A) : list field_error :=
  match r with
  | inl errs => errs
  | inr _ => []
  end.

(** ** The handlers of [main.py] *)

Section Handlers.

(** Python's [str()], used on the stored [_id]. *)
Variable py_str : pyval → string.

(** Python's [int()] on a [str]: [None] when it raises [ValueError]. *)
Variable str_to_int : string → option Z.

(** The syntax check behind [EmailStr]: the normalised address, or [None]
    when the address is not syntactically valid. *)
Variable validate_email : string → option string.

(** [os.getenv] *)
Variable getenv : string → option string.

(** The upstream API: what [requests.get] meets for each request. *)
Variable upstream : Request → fetch.

(** [int(v)] *)
Definition py_int (v : pyval) : result Z :=
  match v with
  | PInt n => Ok n
  | PBool b => Ok (if b then 1 else 0)
  | PStr s =>
      match str_to_int s with
      | Some n => Ok n
      | None => Raise (Unhandled "ValueError")
      end
  | _ => Raise (Unhandled "TypeError")
  end.

(** A field declared [f: EmailStr]. *)
Definition email_str (payload : gmap string pyval) (f : string)
    : list field_error + string :=
  match payload !! f with
  | None => inl [FieldError f Missing]
  | Some (PStr s) =>
      match validate_email s with
      | Some e => inr e
      | None => inl [FieldError f MalformedEmail]
      end
  | Some _ => inl [FieldError f WrongType]
  end.

(** Modelled from the spec: the validation the framework runs on a request
    body against [class ContactMessage] of [schemas.py], the spec's "either
    produce a validated, normalized value matching the entity's field set
    and types, or fail with a ValidationError enumerating every field
    violation (missing required field, wrong type, ..., malformed email)". *)
Definition validate_ContactMessage (body : pyval)
    : list field_error + ContactMessage :=
  match body with
  | PDict d =>
      let name := required_str d "name" in
      let email := email_str d "email" in
      let message := required_str d "message" in
      let subject := optional_str d "subject" in
      let source := optional_str d "source" in
      match name, email, message, subject, source with
      | inr n, inr e, inr m, inr s, inr o => inr (MkContactMessage n e m s o)
      | _, _, _, _, _ =>
          inl (violations name ++ violations email ++ violations message
               ++ violations subject ++ violations source)
      end
  | _ => inl [FieldError "body" WrongType]
  end.

(** [def serialize_doc(doc)]: [doc] is a document or [None]. *)
Definition serialize_doc (doc : option (gmap string pyval))
    : option (gmap string pyval) :=
  match doc with
  | None => doc
  | Some d =>
      if bool_decide (d = ∅) then doc
      else
        match d !! "_id" with
        | Some _id => Some (<["id" := PStr (py_str _id)]> (delete "_id" d))
        | None => Some d
        end
  end.

(** [@app.get("/test") def test_database()] *)
Definition test_database (db : option Database) : pyexc + gmap string pyval :=
  let response : gmap string pyval :=
    {[ "backend" := PStr "✅ Running";
       "database" := PStr "❌ Not Available";
       "database_url" :=
         PStr (if truthy_str (getenv "DATABASE_URL") then "✅ Set" else "❌ Not Set");
       "database_name" := PStr (str_or (getenv "DATABASE_NAME") "❌ Not Set");
       "connection_status" := PStr "Not Connected";
       "collections" := PList [] ]} in
  let body : Build unit :=
    try_except
      (match db with
       | Some db =>
           _ ← setitem "database" (PStr "✅ Available");
           try_except
             (names ← call (list_collection_names db);
              _ ← setitem "collections" (PList (PStr <$> take 10 names));
              _ ← setitem "connection_status" (PStr "Connected");
              setitem "database" (PStr "✅ Connected & Working"))
             (λ e, setitem "database"
                     (PStr ("⚠️ Connected but error: " +:+ str_take 80 (exc_str e))))
       | None => mret tt
       end)
      (λ e, setitem "database" (PStr ("❌ Error: " +:+ str_take 80 (exc_str e)))) in
  match body response with
  | (inr _, response) => inr response
  | (inl e, _) => inl e
  end.

(** [[serialize_doc(i) for i in items]] *)
Definition serialize_all (items : list (gmap string pyval))
    : list (option (gmap string pyval)) :=
  (λ i, serialize_doc (Some i)) <$> items.

(** The list endpoints.  A parameter with a default is an [option]: [None]
    when the request leaves it out. *)

(** [def list_projects(featured: Optional[bool] = None, limit: int = 50)] *)
Definition list_projects (st : store) (featured : option (option bool))
    (limit : option Z) : list (option (gmap string pyval)) :=
  let featured := default None featured in
  let limit := default 50 limit in
  let query : gmap string pyval := ∅ in
  let query :=
    match featured with
    | Some b => <["featured" := PBool b]> query
    | None => query
    end in
  let items := get_documents st "project" query limit in
  serialize_all items.

(** [def list_testimonials(limit: int = 50)] *)
Definition list_testimonials (st : store) (limit : option Z)
    : list (option (gmap string pyval)) :=
  let limit := default 50 limit in
  let items := get_documents st "testimonial" ∅ limit in
  serialize_all items.

(** [def list_guestbook(limit: int = 100)] *)
Definition list_guestbook (st : store) (limit : option Z)
    : list (option (gmap string pyval)) :=
  let limit := default 100 limit in
  let items := get_documents st "guestbookentry" ∅ limit in
  serialize_all items.

(** [def list_bucket(limit: int = 100)] *)
Definition list_bucket (st : store) (limit : option Z)
    : list (option (gmap string pyval)) :=
  let limit := default 100 limit in
  let items := get_documents st "bucketitem" ∅ limit in
  serialize_all items.

(** [def list_uses(limit: int = 200)] *)
Definition list_uses (st : store) (limit : option Z)
    : list (option (gmap string pyval)) :=
  let limit := default 200 limit in
  let items := get_documents st "useitem" ∅ limit in
  serialize_all items.

(** [def list_blog(published: Optional[bool] = True, limit: int = 50)] *)
Definition list_blog (st : store) (published : option (option bool))
    (limit : option Z) : list (option (gmap string pyval)) :=
  let published := default (Some true) published in
  let limit := default 50 limit in
  let query : gmap string pyval := ∅ in
  let query :=
    match published with
    | Some b => <["published" := PBool b]> query
    | None => query
    end in
  let items := get_documents st "blogpost" query limit in
  serialize_all items.

(** [def get_blog(slug: str)] *)
Definition get_blog (st : store) (slug : string)
    : result (option (gmap string pyval)) :=
  let items := get_documents st "blogpost" {[ "slug" := PStr slug ]} 1 in
  match items with
  | [] => Raise (HTTPException 404 "Post not found")
  | item :: _ => Ok (serialize_doc (Some item))
  end.

(** [def contact(message: ContactMessage)] *)
Definition contact (db : option store) (message : ContactMessage)
    : result (gmap string pyval) * option store :=
  match create_document db "contactmessage" (ContactMessage_dump message) with
  | (Ok _id, db') => (Ok {[ "id" := PStr _id; "status" := PStr "received" ]}, db')
  | (Raise e, db') => (Raise e, db')
  end.

(** [@app.post("/api/contact")]: the framework validates the body against
    the handler's parameter type and calls the handler only with a validated
    message. *)
Definition post_contact (db : option store) (body : pyval)
    : result (gmap string pyval) * option store :=
  match validate_ContactMessage body with
  | inl errs => (Raise (RequestValidationError errs), db)
  | inr message => contact db message
  end.

(** [requests.get(url, headers=headers, timeout=timeout)] *)
Definition requests_get (url : string) (headers : gmap string string)
    (timeout : Z) : IO Response :=
  λ log,
    let rq := MkRequest url headers timeout in
    (match upstream rq with
     | Responded r => Ok r
     | Failed c => Raise (Unhandled c)
     end, log ++ [rq]).

(** The [headers] both GitHub handlers build: the bearer token is added when
    [GITHUB_TOKEN] is set and not empty. *)
Definition github_headers : gmap string string :=
  let headers : gmap string string := {[ "Accept" := "application/vnd.github+json" ]} in
  match getenv "GITHUB_TOKEN" with
  | Some (String _ _ as token) => <["Authorization" := "Bearer " +:+ token]> headers
  | _ => headers
  end.

(** The loop [for r in ...: stars += int(r.get("stargazers_count", 0))]. *)
Fixpoint sum_stars (repos : list pyval) (stars : Z) : result Z :=
  match repos with
  | [] => Ok stars
  | r :: repos =>
      c ← py_get r "stargazers_count" (PInt 0);
      n ← py_int c;
      sum_stars repos (stars + n)
  end.

(** [def github_stats(user: str)] *)
Definition github_stats (user : string) : IO (gmap string pyval) :=
  let headers := github_headers in
  user_resp ← requests_get (GITHUB_API +:+ "/users/" +:+ user) headers 10;
  if negb (resp_status user_resp =? 200) then
    io_raise (HTTPException (resp_status user_resp) (resp_text user_resp))
  else
    repos_resp ←
      requests_get
        (GITHUB_API +:+ "/users/" +:+ user +:+ "/repos?per_page=100&sort=updated")
        headers 10;
    stars ← (if resp_status repos_resp =? 200 then
               io_lift (body ← json_of repos_resp;
                        repos ← py_iter body;
                        sum_stars repos 0)
             else mret 0);
    data ← io_lift (json_of user_resp);
    followers ← io_lift (py_get data "followers" (PInt 0));
    public_repos ← io_lift (py_get data "public_repos" (PInt 0));
    mret ({[ "followers" := followers;
             "public_repos" := public_repos;
             "stars" := PInt stars ]} : gmap string pyval).

(** The dict [github_repos] builds for one repository [r]. *)
Definition repo_projection (r : pyval) : result (gmap string pyval) :=
  name ← py_get r "name" PNone;
  full_name ← py_get r "full_name" PNone;
  description ← py_get r "description" PNone;
  html_url ← py_get r "html_url" PNone;
  language ← py_get r "language" PNone;
  stargazers_count ← py_get r "stargazers_count" PNone;
  forks_count ← py_get r "forks_count" PNone;
  topics ← py_get r "topics" (PList []);
  homepage ← py_get r "homepage" PNone;
  Ok ({[ "name" := name;
         "full_name" := full_name;
         "description" := description;
         "html_url" := html_url;
         "language" := language;
         "stargazers_count" := stargazers_count;
         "forks_count" := forks_count;
         "topics" := topics;
         "homepage" := homepage ]} : gmap string pyval).

(** [def github_repos(user: str, limit: int = 12)] *)
Definition github_repos (user : string) (limit : option Z)
    : IO (list (gmap string pyval)) :=
  let limit := default 12 limit in
  let headers := github_headers in
  resp ←
    requests_get
      (GITHUB_API +:+ "/users/" +:+ user +:+ "/repos?per_page="
         +:+ pretty (Z.min limit 100) +:+ "&sort=updated")
      headers 10;
  if negb (resp_status resp =? 200) then
    io_raise (HTTPException (resp_status resp) (resp_text resp))
  else
    io_lift (body ← json_of resp;
             repos ← py_iter body;
             comprehension repo_projection repos).

#[local] Set Default Proof Using "Type".

(** ** The routes, and the vocabulary of the statements *)

Inductive list_endpoint := Projects | Testimonials | Guestbook | Bucket | Uses | Blog.

(** The [@app.get] routes that list a collection.  [flag] is the boolean
    query parameter of the route ([featured] for projects, [published] for
    blog); the other routes declare none and ignore it. *)
Definition list_route (st : store) (e : list_endpoint)
    (flag : option (option bool)) (limit : option Z)
    : list (option (gmap string pyval)) :=
  match e with
  | Projects => list_projects st flag limit
  | Testimonials => list_testimonials st limit
  | Guestbook => list_guestbook st limit
  | Bucket => list_bucket st limit
  | Uses => list_uses st limit
  | Blog => list_blog st flag limit
  end.

(** The collection each list route reads. *)
Definition route_collection (e : list_endpoint) : string :=
  match e with
  | Projects => "project"
  | Testimonials => "testimonial"
  | Guestbook => "guestbookentry"
  | Bucket => "bucketitem"
  | Uses => "useitem"
  | Blog => "blogpost"
  end.

(** The per-entity default ceiling in the spec's words: "50 for
    projects/testimonials/blog, 100 for guestbook/bucket, 200 for uses". *)
Definition default_ceiling (e : list_endpoint) : Z :=
  match e with
  | Projects | Testimonials | Blog => 50
  | Guestbook | Bucket => 100
  | Uses => 200
  end.

(** The profile request of [github_stats]. *)
Definition profile_request (user : string) : Request :=
  MkRequest (GITHUB_API +:+ "/users/" +:+ user) github_headers 10.

(** A request for the [per_page] most recently updated repositories. *)
Definition repos_request (user : string) (per_page : Z) : Request :=
  MkRequest
    (GITHUB_API +:+ "/users/" +:+ user +:+ "/repos?per_page=" +:+ pretty per_page
       +:+ "&sort=updated")
    github_headers 10.

(** The star count of a repository, a missing count being zero. *)
Definition star_count (r : gmap string pyval) : Z :=
  match r !! "stargazers_count" with
  | Some (PInt n) => n
  | _ => 0
  end.

Definition total_stars (repos : list (gmap string pyval)) : Z :=
  foldr (λ r acc, star_count r + acc) 0 repos.

(** A repository whose star count is absent or an integer. *)
Definition counted (r : gmap string pyval) : Prop :=
  r !! "stargazers_count" = None ∨ ∃ n, r !! "stargazers_count" = Some (PInt n).

(** The nine fields of the reduced projection. *)
Definition projection_fields : gset string :=
  {[ "name"; "full_name"; "description"; "html_url"; "language";
     "stargazers_count"; "forks_count"; "topics"; "homepage" ]}.

(** What [r.get(k)] / [r.get("topics", [])] yields for field [k] of [r]. *)
Definition projected (r : gmap string pyval) (k : string) : pyval :=
  default (if bool_decide (k = "topics") then PList [] else PNone) (r !! k).

(** The page size in the words of the claim: 12 when no limit is given,
    capped at 100, and nothing done to a limit of 0 or less. *)
Definition requested_page_size (limit : option Z) : Z :=
  match limit with
  | None => 12
  | Some l => if bool_decide (100 < l) then 100 else l
  end.

(** ** Sample data *)

Definition sample_str (v : pyval) : string :=
  match v with
  | PObjectId hex => hex
  | PStr s => s
  | PInt n => pretty n
  | _ => "None"
  end.

Definition sample_int (s : string) : option Z := None.

Definition sample_email (s : string) : option string :=
  match String.index 0 "@" s with
  | Some _ => Some s
  | None => None
  end.

Definition sample_getenv (name : string) : option string := None.

Definition sample_post : gmap string pyval :=
  {[ "_id" := PObjectId "65f0c0ffee"; "title" := PStr "Hello";
     "slug" := PStr "hello"; "published" := PBool true ]}.

Definition sample_draft : gmap string pyval :=
  {[ "_id" := PObjectId "65f0c0ffef"; "title" := PStr "Draft";
     "slug" := PStr "draft"; "published" := PBool false ]}.

Definition sample_store : store :=
  MkStore {[ "blogpost" := [sample_draft; sample_post] ]} 7.

(** The reduced projection of a repository. *)
Definition projection_of (r : gmap string pyval) : gmap string pyval :=
  {[ "name" := projected r "name";
     "full_name" := projected r "full_name";
     "description" := projected r "description";
     "html_url" := projected r "html_url";
     "language" := projected r "language";
     "stargazers_count" := projected r "stargazers_count";
     "forks_count" := projected r "forks_count";
     "topics" := projected r "topics";
     "homepage" := projected r "homepage" ]}.

(** The object [github_stats] answers with. *)
Definition stats_of (profile : gmap string pyval) (stars : Z) : gmap string pyval :=
  {[ "followers" := default (PInt 0) (profile !! "followers");
     "public_repos" := default (PInt 0) (profile !! "public_repos");
     "stars" := PInt stars ]}.

Definition sample_profile : gmap string pyval :=
  {[ "login" := PStr "octocat"; "followers" := PInt 42; "public_repos" := PInt 8 ]}.

Definition sample_repos : list (gmap string pyval) :=
  [ {[ "name" := PStr "hello-world"; "stargazers_count" := PInt 5;
       "fork" := PBool false; "topics" := PList [PStr "demo"] ]};
    {[ "name" := PStr "notes" ]} ].

(** An upstream that knows the user [octocat], rate-limits the repository
    list of [busy], and answers an empty list for [nobody].  The text of the
    two large bodies is abbreviated; [resp_json] holds what they parse to. *)
Definition sample_upstream (rq : Request) : fetch :=
  let api := "https://api.github.com/users/" in
  let u := url rq in
  if bool_decide (u = api +:+ "octocat") || bool_decide (u = api +:+ "busy") then
    Responded (MkResponse 200 "(profile)" (Some (PDict sample_profile)))
  else if bool_decide (u = api +:+ "octocat/repos?per_page=100&sort=updated")
          || bool_decide (u = api +:+ "octocat/repos?per_page=5&sort=updated") then
    Responded (MkResponse 200 "(repositories)" (Some (PList (PDict <$> sample_repos))))
  else if bool_decide (u = api +:+ "busy/repos?per_page=100&sort=updated") then
    Responded (MkResponse 403 "rate limit exceeded" None)
  else if bool_decide (u = api +:+ "nobody/repos?per_page=-1&sort=updated") then
    Responded (MkResponse 200 "[]" (Some (PList [])))
  else
    Responded (MkResponse 404 "Not Found" None).

Definition sample_contact : gmap string pyval :=
  {[ "name" := PStr "Ada"; "email" := PStr "ada@example.org";
     "message" := PStr "Hello" ]}.

Definition sample_bad_contact : gmap string pyval :=
  {[ "name" := PStr "Ada"; "email" := PStr "not-an-email";
     "message" := PStr "Hello" ]}.

(** ** The remaining schemas and create handlers *)

(** The other classes of [schemas.py].  An [HttpUrl] is kept as the text of
    the URL, and the [datetime] of [published_at] as its ISO 8601 text. *)

(** [class Project(BaseModel)] *)
Record Project := MkProject {
  pr_title : string;
  pr_slug : string;
  pr_description : string;
  pr_tech : list string;
  pr_image : option string;
  pr_repo_url : option string;
  pr_live_url : option string;
  pr_featured : bool;
  pr_stars : option Z
}.

(** [class Testimonial(BaseModel)] *)
Record Testimonial := MkTestimonial {
  te_name : string;
  te_role : option string;
  te_quote : string;
  te_avatar : option string;
  te_company : option string;
  te_highlight : option bool
}.

(** [class GuestbookEntry(BaseModel)] *)
Record GuestbookEntry := MkGuestbookEntry {
  gb_name : string;
  gb_message : string;
  gb_avatar : option string;
  gb_website : option string
}.

(** [class BucketItem(BaseModel)] *)
Record BucketItem := MkBucketItem {
  bi_title : string;
  bi_done : bool;
  bi_notes : option string
}.

(** [class UseItem(BaseModel)] *)
Record UseItem := MkUseItem {
  ui_category : string;
  ui_name : string;
  ui_description : option string;
  ui_link : option string
}.

(** [class BlogPost(BaseModel)] *)
Record BlogPost := MkBlogPost {
  bp_title : string;
  bp_slug : string;
  bp_excerpt : option string;
  bp_content : option string;
  bp_tags : list string;
  bp_cover_image : option string;
  bp_published : bool;
  bp_published_at : option string
}.

(** [Project(title=..., slug=..., description=..., ...)]: the fields declared
    with a default take it when the argument is left out. *)
Definition Project_new (title slug description : string)
    (tech : option (list string)) (image repo_url live_url : option string)
    (featured : option bool) (stars : option Z) : Project :=
  MkProject title slug description (default [] tech) image repo_url live_url
    (default false featured) stars.

(** [BlogPost(title=..., slug=..., ...)] *)
Definition BlogPost_new (title slug : string) (excerpt content : option string)
    (tags : option (list string)) (cover_image : option string)
    (published : option bool) (published_at : option string) : BlogPost :=
  MkBlogPost title slug excerpt content (default [] tags) cover_image
    (default false published) published_at.

Definition str_list (l : list string) : pyval := PList (PStr <$> l).

Definition opt_bool (o : option bool) : pyval :=
  match o with
  | Some b => PBool b
  | None => PNone
  end.

Definition opt_int (o : option Z) : pyval :=
  match o with
  | Some n => PInt n
  | None => PNone
  end.

(** The documents the validated models are stored as: one field per
    attribute of the class. *)
Definition Project_dump (p : Project) : gmap string pyval :=
  {[ "title" := PStr (pr_title p);
     "slug" := PStr (pr_slug p);
     "description" := PStr (pr_description p);
     "tech" := str_list (pr_tech p);
     "image" := opt_str (pr_image p);
     "repo_url" := opt_str (pr_repo_url p);
     "live_url" := opt_str (pr_live_url p);
     "featured" := PBool (pr_featured p);
     "stars" := opt_int (pr_stars p) ]}.

Definition Testimonial_dump (t : Testimonial) : gmap string pyval :=
  {[ "name" := PStr (te_name t);
     "role" := opt_str (te_role t);
     "quote" := PStr (te_quote t);
     "avatar" := opt_str (te_avatar t);
     "company" := opt_str (te_company t);
     "highlight" := opt_bool (te_highlight t) ]}.

Definition GuestbookEntry_dump (g : GuestbookEntry) : gmap string pyval :=
  {[ "name" := PStr (gb_name g);
     "message" := PStr (gb_message g);
     "avatar" := opt_str (gb_avatar g);
     "website" := opt_str (gb_website g) ]}.

Definition BucketItem_dump (b : BucketItem) : gmap string pyval :=
  {[ "title" := PStr (bi_title b);
     "done" := PBool (bi_done b);
     "notes" := opt_str (bi_notes b) ]}.

Definition UseItem_dump (u : UseItem) : gmap string pyval :=
  {[ "category" := PStr (ui_category u);
     "name" := PStr (ui_name u);
     "description" := opt_str (ui_description u);
     "link" := opt_str (ui_link u) ]}.

Definition BlogPost_dump (b : BlogPost) : gmap string pyval :=
  {[ "title" := PStr (bp_title b);
     "slug" := PStr (bp_slug b);
     "excerpt" := opt_str (bp_excerpt b);
     "content" := opt_str (bp_content b);
     "tags" := str_list (bp_tags b);
     "cover_image" := opt_str (bp_cover_image b);
     "published" := PBool (bp_published b);
     "published_at" := opt_str (bp_published_at b) ]}.

(** [_id = create_document(name, item); return {"id": _id}], the body the six
    create handlers share. *)
Definition create_and_return_id (db : option store) (collection_name : string)
    (data : gmap string pyval) : result (gmap string pyval) * option store :=
  match create_document db collection_name data with
  | (Ok _id, db') => (Ok {[ "id" := PStr _id ]}, db')
  | (Raise e, db') => (Raise e, db')
  end.

(** [def create_project(project: Project)] *)
Definition create_project (db : option store) (project : Project)
    : result (gmap string pyval) * option store :=
  create_and_return_id db "project" (Project_dump project).

(** [def create_testimonial(item: Testimonial)] *)
Definition create_testimonial (db : option store) (item : Testimonial)
    : result (gmap string pyval) * option store :=
  create_and_return_id db "testimonial" (Testimonial_dump item).

(** [def sign_guestbook(entry: GuestbookEntry)] *)
Definition sign_guestbook (db : option store) (entry : GuestbookEntry)
    : result (gmap string pyval) * option store :=
  create_and_return_id db "guestbookentry" (GuestbookEntry_dump entry).

(** [def add_bucket(item: BucketItem)] *)
Definition add_bucket (db : option store) (item : BucketItem)
    : result (gmap string pyval) * option store :=
  create_and_return_id db "bucketitem" (BucketItem_dump item).

(** [def add_use(item: UseItem)] *)
Definition add_use (db : option store) (item : UseItem)
    : result (gmap string pyval) * option store :=
  create_and_return_id db "useitem" (UseItem_dump item).

(** [def create_blog(post: BlogPost)] *)
Definition create_blog (db : option store) (post : BlogPost)
    : result (gmap string pyval) * option store :=
  create_and_return_id db "blogpost" (BlogPost_dump post).

(** The [@app.post] routes that create a document of a listed entity. *)
Inductive create_request :=
| NewProject (project : Project)
| NewTestimonial (item : Testimonial)
| NewGuestbookEntry (entry : GuestbookEntry)
| NewBucketItem (item : BucketItem)
| NewUseItem (item : UseItem)
| NewBlogPost (post : BlogPost).

Definition create_route (db : option store) (rq : create_request)
    : result (gmap string pyval) * option store :=
  match rq with
  | NewProject project => create_project db project
  | NewTestimonial item => create_testimonial db item
  | NewGuestbookEntry entry => sign_guestbook db entry
  | NewBucketItem item => add_bucket db item
  | NewUseItem item => add_use db item
  | NewBlogPost post => create_blog db post
  end.

(** The list route of the entity a create route makes. *)
Definition listed_by (rq : create_request) : list_endpoint :=
  match rq with
  | NewProject _ => Projects
  | NewTestimonial _ => Testimonials
  | NewGuestbookEntry _ => Guestbook
  | NewBucketItem _ => Bucket
  | NewUseItem _ => Uses
  | NewBlogPost _ => Blog
  end.

(** The fields of the document a create route stores. *)
Definition stored_fields (rq : create_request) : gmap string pyval :=
  match rq with
  | NewProject project => Project_dump project
  | NewTestimonial item => Testimonial_dump item
  | NewGuestbookEntry entry => GuestbookEntry_dump entry
  | NewBucketItem item => BucketItem_dump item
  | NewUseItem item => UseItem_dump item
  | NewBlogPost post => BlogPost_dump post
  end.

(** [@app.get("/") def root()] *)
Definition root : gmap string pyval :=
  {[ "message" := PStr "Portfolio Backend is running" ]}.

(** A handler step that sends no request. *)
Definition silent {A} (m : IO A) : Prop := ∀ log, (m log).2 = log.

(** The six keys of the [/test] response. *)
Definition diagnostic_fields : gset string :=
  {[ "backend"; "database"; "database_url"; "database_name";
     "connection_status"; "collections" ]}.

(** What the star loop of [github_stats] and the rest of its body compute
    from the two responses, once both requests were answered. *)
Definition stats_outcome (user_resp repos_resp : Response)
    : result (gmap string pyval) :=
  stars ← (if resp_status repos_resp =? 200 then
             body ← json_of repos_resp;
             repos ← py_iter body;
             sum_stars repos 0
           else Ok 0);
  data ← json_of user_resp;
  followers ← py_get data "followers" (PInt 0);
  public_repos ← py_get data "public_repos" (PInt 0);
  Ok ({[ "followers" := followers;
         "public_repos" := public_repos;
         "stars" := PInt stars ]} : gmap string pyval).

Definition sample_project : Project :=
  Project_new "Site" "site" "My site" None None None None None None.

Definition sample_draft_post : BlogPost :=
  BlogPost_new "Fresh" "fresh" None None None None None None.

Definition sample_database : Database :=
  MkDatabase (inl (PyExc "ServerSelectionTimeoutError" "connection refused")).

(** What [github_repos] computes from the upstream response. *)
Definition listing_outcome (resp : Response) : result (list (gmap string pyval)) :=
  if negb (resp_status resp =? 200) then
    Raise (HTTPException (resp_status resp) (resp_text resp))
  else
    body ← json_of resp;
    repos ← py_iter body;
    comprehension repo_projection repos.

(** An upstream that answers the profile request of [octocat] with
    [profile] and meets every other request with [other]. *)
Definition sample_upstream_with (profile : Response) (other : fetch)
    (rq : Request) : fetch :=
  if bool_decide (url rq = "https://api.github.com/users/octocat") then
    Responded profile
  else other.

Definition sample_offline (rq : Request) : fetch := Failed "ConnectionError".

Definition sample_profile_response : Response :=
  MkResponse 200 "(profile)" (Some (PDict sample_profile)).

Definition sample_null_stars : list pyval :=
  (PDict <$> sample_repos) ++ [PDict {[ "stargazers_count" := PNone ]}].

Definition sample_mixed_entries : list pyval :=
  (PDict <$> sample_repos) ++ [PStr "oops"].

(** A returned view [view] shows a stored blog post whose [published] field
    is [b]. *)
Definition shows_published (st : store) (b : bool)
    (view : option (gmap string pyval)) : Prop :=
  ∃ d d', d ∈ collection st "blogpost" ∧ d !! "published" = Some (PBool b) ∧
          serialize_doc (Some d) = Some d' ∧ view = Some d' ∧
          d' !! "published" = Some (PBool b).

(** * Properties *)

(** ** Storage queries *)

Lemma get_documents_elem st c flt l d :
  d ∈ get_documents st c flt l → d ∈ collection st c ∧ matches flt d.
Proof.
  unfold get_documents. intros Hd.
  apply (subseteq_take (Z.to_nat l)) in Hd.
  apply list_elem_of_filter in Hd as [Hm Hin]. split; assumption.
Qed.

Lemma get_documents_length st c flt l :
  0 ≤ l → Z.of_nat (length (get_documents st c flt l)) ≤ l.
Proof. intros Hl. unfold get_documents. rewrite length_take. lia. Qed.

Lemma matches_singleton k v (d : gmap string pyval) :
  matches {[ k := v ]} d ↔ d !! k = Some v.
Proof.
  unfold matches.
  exact (map_Forall_singleton (λ k' v', d !! k' = Some v') k v).
Qed.

Lemma filter_first {A} (P : A → Prop) `{!∀ x, Decision (P x)} (l : list A) :
  (filter P l = [] ∧ Forall (λ x, ¬ P x) l) ∨
  (∃ pre x post, l = pre ++ x :: post ∧ Forall (λ y, ¬ P y) pre ∧ P x ∧
                 filter P l = x :: filter P post).
Proof.
  induction l as [|a l IH].
  - left. split; [reflexivity | constructor].
  - destruct (decide (P a)) as [Ha | Ha].
    + right. exists [], a, l. rewrite filter_cons_True by assumption.
      repeat split; [constructor | assumption].
    + rewrite filter_cons_False by assumption.
      destruct IH as [[Hnil Hall] | (pre & x & post & -> & Hpre & Hx & Hf)].
      * left. split; [assumption | constructor; assumption].
      * right. exists (a :: pre), x, post.
        repeat split; [constructor; assumption | assumption | assumption].
Qed.

(** ** Serialization *)

Lemma serialize_doc_some (d : gmap string pyval) :
  ∃ d', serialize_doc (Some d) = Some d' ∧
        d' !! "_id" = None ∧
        d' !! "id" = match d !! "_id" with
                     | Some v => Some (PStr (py_str v))
                     | None => d !! "id"
                     end ∧
        (d !! "_id" = None → d' = d) ∧
        ∀ k, k ≠ "_id" → k ≠ "id" → d' !! k = d !! k.
Proof.
  unfold serialize_doc. case_bool_decide as Hempty.
  - subst d. exists ∅. rewrite !lookup_empty. auto.
  - destruct (d !! "_id") as [v|] eqn:Hid.
    + eexists. split; [reflexivity|].
      split; [rewrite lookup_insert_ne by discriminate; apply lookup_delete_eq|].
      split; [apply lookup_insert_eq|].
      split; [discriminate|].
      intros k H1 H2.
      rewrite lookup_insert_ne by congruence.
      apply lookup_delete_ne. congruence.
    + exists d. rewrite Hid. auto.
Qed.

(** C6.  [serialize_doc] returns [None] as it is; a document comes back with
    the internal field [_id] removed, the public field [id] holding the
    string of the identifier, and every other field as it was (a document
    without [_id] comes back unchanged); every list route and [get_blog]
    return nothing but documents of their collection passed through
    [serialize_doc]. *)
Theorem serialize_doc_public_id :
  serialize_doc None = None ∧
  (∀ d : gmap string pyval,
     ∃ d', serialize_doc (Some d) = Some d' ∧
           d' !! "_id" = None ∧
           d' !! "id" = match d !! "_id" with
                        | Some v => Some (PStr (py_str v))
                        | None => d !! "id"
                        end ∧
           (d !! "_id" = None → d' = d) ∧
           ∀ k, k ≠ "_id" → k ≠ "id" → d' !! k = d !! k) ∧
  (∀ st e flag limit,
     ∃ items, Forall (λ i, i ∈ collection st (route_collection e)) items ∧
              list_route st e flag limit = (λ i, serialize_doc (Some i)) <$> items) ∧
  (∀ st slug view,
     get_blog st slug = Ok view →
     ∃ item, item ∈ collection st "blogpost" ∧ view = serialize_doc (Some item)).
Proof.
  split; [reflexivity|]. split; [exact serialize_doc_some|]. split.
  - intros st e flag limit.
    destruct e; cbn [list_route route_collection];
      unfold list_projects, list_testimonials, list_guestbook, list_bucket,
        list_uses, list_blog, serialize_all; cbv zeta;
      eexists; (split; [|reflexivity]);
      apply Forall_forall; intros d Hd; apply get_documents_elem in Hd;
      exact (proj1 Hd).
  - intros st slug view. unfold get_blog.
    destruct (get_documents st "blogpost" {["slug" := PStr slug]} 1)
      as [|item rest] eqn:Hq; [discriminate|].
    intros [= <-]. exists item. split; [|reflexivity].
    assert (Hin : item ∈ get_documents st "blogpost" {["slug" := PStr slug]} 1)
      by (rewrite Hq; left).
    apply get_documents_elem in Hin. exact (proj1 Hin).
Qed.

(** ** List routes *)

(** C4.  Without a [published] parameter [list_blog] queries the store with
    the filter [published = true], and every view returned shows a stored
    post whose [published] is [true]; with an explicit value [b] the filter
    is [published = b] and every view returned shows a post whose
    [published] is [b]. *)
Theorem list_blog_published st limit :
  list_blog st None limit =
    serialize_all
      (get_documents st "blogpost" {[ "published" := PBool true ]} (default 50 limit)) ∧
  Forall (shows_published st true) (list_blog st None limit) ∧
  ∀ b : bool,
    list_blog st (Some (Some b)) limit =
      serialize_all
        (get_documents st "blogpost" {[ "published" := PBool b ]} (default 50 limit)) ∧
    Forall (shows_published st b) (list_blog st (Some (Some b)) limit).
Proof.
  assert (Hshow : ∀ b l,
    Forall (shows_published st b)
      (serialize_all (get_documents st "blogpost" {[ "published" := PBool b ]} l))).
  { intros b l. unfold serialize_all. apply Forall_fmap, Forall_forall.
    intros d Hd. apply get_documents_elem in Hd as [Hin Hm].
    apply matches_singleton in Hm.
    destruct (serialize_doc_some d) as (d' & Hs & _ & _ & _ & Hk).
    exists d, d'. repeat split; try assumption.
    rewrite Hk by discriminate. assumption. }
  unfold list_blog; cbv zeta.
  split; [reflexivity|]. split; [exact (Hshow true _)|].
  intros b. split; [reflexivity | exact (Hshow b _)].
Qed.

(** C5, amended.  For every list route and every request whose limit (the
    requested one, or the route's default ceiling when none is given) is not
    negative, the number of returned documents does not exceed it. *)
Theorem list_route_bounded st e flag limit :
  0 ≤ default (default_ceiling e) limit →
  Z.of_nat (length (list_route st e flag limit)) ≤ default (default_ceiling e) limit.
Proof.
  intros Hl.
  destruct e; cbn [list_route default_ceiling] in *;
    unfold list_projects, list_testimonials, list_guestbook, list_bucket,
      list_uses, list_blog, serialize_all; cbv zeta;
    rewrite length_fmap; apply get_documents_length; assumption.
Qed.

(** ** Blog lookup *)

(** C8.  When no stored post has the slug, [get_blog] raises
    [HTTPException(404)] and returns no document; when some post has it,
    [get_blog] returns the serialization of one stored post with exactly
    that slug, the earliest in the store's order. *)
Theorem get_blog_by_slug st slug :
  ((∀ d, d ∈ collection st "blogpost" → d !! "slug" ≠ Some (PStr slug)) →
   get_blog st slug = Raise (HTTPException 404 "Post not found") ∧
   http_status (get_blog st slug) = 404) ∧
  (∀ d, d ∈ collection st "blogpost" → d !! "slug" = Some (PStr slug) →
   ∃ found before after,
     collection st "blogpost" = before ++ found :: after ∧
     Forall (λ x, x !! "slug" ≠ Some (PStr slug)) before ∧
     found !! "slug" = Some (PStr slug) ∧
     get_blog st slug = Ok (serialize_doc (Some found)) ∧
     http_status (get_blog st slug) = 200).
Proof.
  unfold get_blog, get_documents.
  destruct (filter_first (matches {[ "slug" := PStr slug ]}) (collection st "blogpost"))
    as [[Hnil Hall] | (pre & x & post & Hsplit & Hpre & Hx & Hf)].
  - rewrite Hnil. split; [intros _; split; reflexivity|].
    intros d Hin Hslug. exfalso.
    rewrite Forall_forall in Hall. apply (Hall d Hin).
    apply matches_singleton. assumption.
  - rewrite Hf. cbn [Z.to_nat Pos.to_nat Pos.iter_op take].
    apply matches_singleton in Hx. split.
    + intros Hnone. exfalso. apply (Hnone x); [|assumption].
      rewrite Hsplit. apply elem_of_app. right. left.
    + intros _ _ _. exists x, pre, post.
      repeat split; try assumption; try reflexivity.
      eapply Forall_impl; [exact Hpre|].
      intros y Hy Hs. apply Hy. apply matches_singleton. assumption.
Qed.

(** ** Contact *)

(** C7.  A body whose [email] is a string that is not a syntactically valid
    address is rejected with a [RequestValidationError] that names the field
    [email], and the store is left as it was; so is any body that fails
    validation.  A body that passes validation, with the store reachable, is
    stored in [contactmessage] under a new identifier, and the response
    holds that identifier and the status acknowledgment. *)
Theorem contact_validation db body :
  (∀ d s, body = PDict d → d !! "email" = Some (PStr s) → validate_email s = None →
     ∃ errs, post_contact db body = (Raise (RequestValidationError errs), db) ∧
             FieldError "email" MalformedEmail ∈ errs ∧
             http_status (post_contact db body).1 = 422) ∧
  (∀ errs, validate_ContactMessage body = inl errs →
     post_contact db body = (Raise (RequestValidationError errs), db)) ∧
  (∀ message st, validate_ContactMessage body = inr message → db = Some st →
     ∃ _id st',
       post_contact db body =
         (Ok {[ "id" := PStr _id; "status" := PStr "received" ]}, Some st') ∧
       collection st' "contactmessage" =
         collection st "contactmessage"
           ++ [<["_id" := PObjectId _id]> (ContactMessage_dump message)] ∧
       ∀ c, c ≠ "contactmessage" → collection st' c = collection st c).
Proof.
  split; [|split].
  - intros d s -> Hemail Hbad. unfold post_contact, validate_ContactMessage.
    cbv zeta.
    assert (He : email_str d "email" = inl [FieldError "email" MalformedEmail])
      by (unfold email_str; rewrite Hemail, Hbad; reflexivity).
    rewrite He.
    assert (Hin : ∀ (a : list field_error) b,
              FieldError "email" MalformedEmail
                ∈ a ++ [FieldError "email" MalformedEmail] ++ b).
    { intros a b. apply elem_of_app. right. left. }
    destruct (required_str d "name"); cbn [violations];
      (eexists; split; [reflexivity|]; split; [apply Hin | reflexivity]).
  - intros errs Hv. unfold post_contact. rewrite Hv. reflexivity.
  - intros message st Hv ->. unfold post_contact. rewrite Hv.
    unfold contact, create_document. cbv zeta.
    eexists _, _. split; [reflexivity|]. split.
    + unfold collection at 1. cbn [collections]. rewrite lookup_insert_eq. reflexivity.
    + intros c Hc. unfold collection at 1. cbn [collections].
      rewrite lookup_insert_ne by congruence. reflexivity.
Qed.

(** ** Diagnostics *)

(** C9.  [test_database] always returns a response, whatever the database
    handle does: without a handle the status string says it is not
    available, an exception of the driver is rendered into the status
    string, and a working handle has its collection names listed, at most
    ten of them. *)
Theorem test_database_never_raises db :
  ∃ response names status,
    test_database db = inr response ∧
    response !! "collections" = Some (PList (PStr <$> names)) ∧
    (length names ≤ 10)%nat ∧
    response !! "database" = Some (PStr status) ∧
    match db with
    | None => status = "❌ Not Available" ∧ names = []
    | Some h =>
        match list_collection_names h with
        | inl e =>
            status = "⚠️ Connected but error: " +:+ str_take 80 (exc_str e) ∧
            names = []
        | inr all => status = "✅ Connected & Working" ∧ names = take 10 all
        end
    end.
Proof.
  destruct db as [[[e | all]]|].
  - eexists _, [], _.
    split; [reflexivity|]. split; [reflexivity|]. split; [cbn; lia|].
    split; [apply lookup_insert_eq|]. cbn. split; reflexivity.
  - eexists _, (take 10 all), _.
    split; [reflexivity|].
    split; [cbn [fst snd]; rewrite lookup_insert_ne by discriminate;
            rewrite lookup_insert_ne by discriminate; apply lookup_insert_eq|].
    split; [rewrite length_take; lia|].
    split; [apply lookup_insert_eq|]. cbn. split; reflexivity.
  - eexists _, [], _.
    split; [reflexivity|]. split; [reflexivity|]. split; [cbn; lia|].
    split; [reflexivity|]. split; reflexivity.
Qed.

(** ** Upstream requests *)

Lemma requests_get_responded u hs t log r :
  upstream (MkRequest u hs t) = Responded r →
  requests_get u hs t log = (Ok r, log ++ [MkRequest u hs t]).
Proof. intros Hr. unfold requests_get. cbv zeta. rewrite Hr. reflexivity. Qed.

Lemma io_bind_ok {A B} (m : IO A) (f : A → IO B) log a log' :
  m log = (Ok a, log') → (m ≫= f) log = f a log'.
Proof. intros Hm. unfold mbind, IO_bind. rewrite Hm. reflexivity. Qed.

Lemma io_bind_raise {A B} (m : IO A) (f : A → IO B) log e log' :
  m log = (Raise e, log') → (m ≫= f) log = (Raise e, log').
Proof. intros Hm. unfold mbind, IO_bind. rewrite Hm. reflexivity. Qed.

Lemma stats_repos_request user :
  MkRequest (GITHUB_API +:+ "/users/" +:+ user +:+ "/repos?per_page=100&sort=updated")
    github_headers 10 = repos_request user 100.
Proof. reflexivity. Qed.

Lemma not_200 s : s ≠ 200 → negb (s =? 200) = true.
Proof. intros Hs. apply negb_true_iff, Z.eqb_neq. assumption. Qed.

Lemma page_size_min limit :
  Z.min (default 12 limit) 100 = requested_page_size limit.
Proof.
  destruct limit as [l|]; [|reflexivity].
  unfold requested_page_size. change (default 12 (Some l)) with l.
  case_bool_decide; lia.
Qed.

Lemma sum_stars_cons r repos acc :
  counted r →
  sum_stars (PDict r :: repos) acc = sum_stars repos (acc + star_count r).
Proof.
  intros [Hr | [n Hr]]; cbn [sum_stars py_get]; unfold star_count;
    rewrite Hr; reflexivity.
Qed.

Lemma sum_stars_counted repos acc :
  Forall counted repos →
  sum_stars (PDict <$> repos) acc = Ok (acc + total_stars repos).
Proof.
  intros Hall. revert acc.
  induction Hall as [|r repos Hr _ IH]; intros acc.
  - cbn. f_equal. lia.
  - rewrite fmap_cons, sum_stars_cons, IH by assumption.
    change (total_stars (r :: repos)) with (star_count r + total_stars repos).
    f_equal. lia.
Qed.

Lemma repo_projection_dict r :
  repo_projection (PDict r) = Ok (projection_of r).
Proof. reflexivity. Qed.

Lemma comprehension_projection repos :
  comprehension repo_projection (PDict <$> repos) = Ok (projection_of <$> repos).
Proof.
  induction repos as [|r repos IH]; [reflexivity|].
  rewrite !fmap_cons. cbn [comprehension]. rewrite repo_projection_dict, IH.
  reflexivity.
Qed.

Lemma projection_of_fields r :
  dom (projection_of r) = projection_fields ∧
  ∀ k, k ∈ projection_fields → projection_of r !! k = Some (projected r k).
Proof.
  split.
  - unfold projection_of, projection_fields.
    rewrite !dom_insert_L, dom_singleton_L. set_solver.
  - intros k Hk. unfold projection_fields in Hk.
    repeat (apply elem_of_union in Hk as [Hk | Hk]);
      apply elem_of_singleton in Hk; subst k; reflexivity.
Qed.

(** C10.  [github_repos] sends one request, for the page size
    [requested_page_size limit]: 12 without a limit, 100 for a limit above
    100, and the limit itself otherwise, zero and negative values
    included. *)
Theorem github_repos_page_size user limit log :
  (github_repos user limit log).2 =
    log ++ [repos_request user (requested_page_size limit)].
Proof.
  unfold github_repos. cbv zeta. rewrite page_size_min.
  unfold mbind at 1, IO_bind, requests_get. cbv zeta.
  destruct (upstream _) as [r | c]; [|reflexivity].
  destruct (negb _); reflexivity.
Qed.

(** C3, amended.  [github_repos] asks the upstream for
    [min(limit, 100)] repositories; a response whose status is not 200 is
    raised as an [HTTPException] with that status and body; a response with
    status 200 is answered with one entry per repository of the upstream
    list, in order -- hence at most [min(limit, 100)] entries whenever the
    upstream returned at most that many -- and each entry has exactly the
    nine projection fields, taken from the repository. *)
Theorem github_repos_projection user limit log resp :
  upstream (repos_request user (Z.min (default 12 limit) 100)) = Responded resp →
  (github_repos user limit log).2 =
    log ++ [repos_request user (Z.min (default 12 limit) 100)] ∧
  (resp_status resp ≠ 200 →
   (github_repos user limit log).1 =
     Raise (HTTPException (resp_status resp) (resp_text resp))) ∧
  (∀ repos,
     resp_status resp = 200 → resp_json resp = Some (PList (PDict <$> repos)) →
     ∃ out,
       (github_repos user limit log).1 = Ok out ∧
       out = projection_of <$> repos ∧
       length out = length repos ∧
       (Z.of_nat (length repos) ≤ Z.min (default 12 limit) 100 →
        Z.of_nat (length out) ≤ Z.min (default 12 limit) 100) ∧
       Forall (λ o, dom o = projection_fields) out ∧
       Forall2 (λ r o, ∀ k, k ∈ projection_fields → o !! k = Some (projected r k))
         repos out).
Proof.
  intros Hup. unfold github_repos. cbv zeta.
  erewrite io_bind_ok by (apply requests_get_responded; exact Hup).
  split; [destruct (negb _); reflexivity|]. split.
  - intros Hs. rewrite not_200 by assumption. reflexivity.
  - intros repos Hs Hj. rewrite Hs. cbn [Z.eqb Pos.eqb negb].
    unfold io_lift, json_of. rewrite Hj. cbn [mbind result_bind py_iter fst].
    rewrite comprehension_projection.
    eexists. split; [reflexivity|]. split; [reflexivity|].
    rewrite length_fmap. split; [reflexivity|]. split; [intros Hle; exact Hle|]. split.
    + apply Forall_fmap, Forall_forall. intros r _.
      exact (proj1 (projection_of_fields r)).
    + apply Forall2_fmap_r, Forall_Forall2_diag, Forall_forall.
      intros r _. exact (proj2 (projection_of_fields r)).
Qed.

(** ** User stats *)

(** C1, amended.  When the profile response has a status other than 200,
    [github_stats] raises an [HTTPException] with that status and body and
    sends no other request; when the profile response is 200 with a profile
    object and the repository-list fetch is answered with a status other
    than 200, [github_stats] still answers (status 200) and the star sum is
    0.  The tolerance is for an answer with an error status only. *)
Theorem github_stats_asymmetric_failure user log user_resp :
  upstream (profile_request user) = Responded user_resp →
  (resp_status user_resp ≠ 200 →
   github_stats user log =
     (Raise (HTTPException (resp_status user_resp) (resp_text user_resp)),
      log ++ [profile_request user]) ∧
   http_status (github_stats user log).1 = resp_status user_resp) ∧
  (∀ profile repos_resp,
     resp_status user_resp = 200 → resp_json user_resp = Some (PDict profile) →
     upstream (repos_request user 100) = Responded repos_resp →
     resp_status repos_resp ≠ 200 →
     github_stats user log =
       (Ok (stats_of profile 0),
        log ++ [profile_request user; repos_request user 100]) ∧
     stats_of profile 0 !! "stars" = Some (PInt 0) ∧
     http_status (github_stats user log).1 = 200).
Proof.
  intros Hup. unfold github_stats. cbv zeta.
  erewrite io_bind_ok by (apply requests_get_responded; exact Hup).
  split.
  - intros Hs. rewrite not_200 by assumption. split; reflexivity.
  - intros profile repos_resp Hs Hj Hup2 Hs2.
    rewrite Hs. cbn [Z.eqb Pos.eqb negb].
    erewrite io_bind_ok by (apply requests_get_responded; exact Hup2).
    apply Z.eqb_neq in Hs2. rewrite Hs2.
    unfold json_of. rewrite Hj. rewrite <- app_assoc.
    split; [reflexivity|]. split; reflexivity.
Qed.

(** C2.  When both fetches answer 200, the profile being an object and the
    repository list a list of repositories whose star counts are integers
    or absent, [github_stats] returns the object with exactly the fields
    [followers], [public_repos] and [stars]: the first two read from the
    profile, [stars] the sum of the star counts of the repositories the
    upstream returned for the request of the 100 most recently updated ones,
    an absent count being zero. *)
Theorem github_stats_success user log user_resp profile repos_resp repos :
  upstream (profile_request user) = Responded user_resp →
  resp_status user_resp = 200 →
  resp_json user_resp = Some (PDict profile) →
  upstream (repos_request user 100) = Responded repos_resp →
  resp_status repos_resp = 200 →
  resp_json repos_resp = Some (PList (PDict <$> repos)) →
  Forall counted repos →
  github_stats user log =
    (Ok (stats_of profile (total_stars repos)),
     log ++ [profile_request user; repos_request user 100]) ∧
  dom (stats_of profile (total_stars repos))
    = ({[ "followers"; "public_repos"; "stars" ]} : gset string) ∧
  stats_of profile (total_stars repos) !! "followers"
    = Some (default (PInt 0) (profile !! "followers")) ∧
  stats_of profile (total_stars repos) !! "public_repos"
    = Some (default (PInt 0) (profile !! "public_repos")) ∧
  stats_of profile (total_stars repos) !! "stars" = Some (PInt (total_stars repos)) ∧
  url (repos_request user 100)
    = GITHUB_API +:+ "/users/" +:+ user +:+ "/repos?per_page=100&sort=updated".
Proof.
  intros Hup Hs Hj Hup2 Hs2 Hj2 Hcounted. unfold github_stats. cbv zeta.
  erewrite io_bind_ok by (apply requests_get_responded; exact Hup).
  rewrite Hs. cbn [Z.eqb Pos.eqb negb].
  erewrite io_bind_ok by (apply requests_get_responded; exact Hup2).
  rewrite Hs2. cbn [Z.eqb Pos.eqb].
  unfold json_of. rewrite Hj, Hj2. rewrite <- app_assoc.
  split.
  - unfold io_lift at 1. cbn [mbind result_bind py_iter].
    rewrite sum_stars_counted by assumption.
    reflexivity.
  - split; [unfold stats_of; rewrite !dom_insert_L, dom_singleton_L; set_solver|].
    repeat split; reflexivity.
Qed.

(** * Further properties of the handlers *)

(** ** Serialization *)

Lemma serialize_doc_without_id (d : gmap string pyval) :
  d !! "_id" = None → serialize_doc (Some d) = Some d.
Proof.
  intros Hid. unfold serialize_doc. rewrite Hid.
  case_bool_decide; reflexivity.
Qed.

(** X1.  [serialize_doc] is idempotent: a view that went through it once
    comes back unchanged from a second pass. *)
Theorem serialize_doc_idempotent doc :
  serialize_doc (serialize_doc doc) = serialize_doc doc.
Proof.
  destruct doc as [d|]; [|reflexivity].
  destruct (serialize_doc_some d) as (d' & Hs & Hid & _).
  rewrite Hs. apply serialize_doc_without_id. assumption.
Qed.

(** X2.  The fields of a serialized document: when the document has an
    [_id], its keys are those of the document with [_id] taken out and [id]
    put in, otherwise they are the keys of the document; the view never has
    more fields than the document. *)
Theorem serialize_doc_fields (d d' : gmap string pyval) :
  serialize_doc (Some d) = Some d' →
  dom d' = (if decide ("_id" ∈ dom d) then {[ "id" ]} ∪ dom d ∖ {[ "_id" ]}
            else dom d) ∧
  (size d' ≤ size d)%nat.
Proof.
  unfold serialize_doc. case_bool_decide as Hempty.
  - intros [= <-]. subst d. rewrite dom_empty_L.
    rewrite decide_False by set_solver. split; [reflexivity | lia].
  - destruct (d !! "_id") as [v|] eqn:Hid; intros [= <-].
    + rewrite decide_True by (apply elem_of_dom; eauto).
      split; [rewrite dom_insert_L, dom_delete_L; reflexivity|].
      rewrite map_size_insert, map_size_delete, Hid.
      assert (size d ≠ 0%nat).
      { intros Hz. apply map_size_empty_inv in Hz. congruence. }
      destruct (delete "_id" d !! "id"); unfold id; lia.
    + rewrite decide_False by (rewrite elem_of_dom, Hid; intros [? [=]]).
      split; [reflexivity | lia].
Qed.

(** ** Diagnostics *)

Lemma str_take_length n s : (str_len (str_take n s) ≤ n)%nat.
Proof.
  revert n. induction s as [|c s IH]; intros n; cbn [str_take str_len]; [lia|].
  destruct (is_continuation c) eqn:Hc.
  - cbn [str_len]. rewrite Hc. apply IH.
  - destruct n as [|n]; cbn [str_len]; [lia|].
    rewrite Hc. specialize (IH n). lia.
Qed.

Lemma str_take_short n s : (str_len s ≤ n)%nat → str_take n s = s.
Proof.
  revert n. induction s as [|c s IH]; intros n; cbn [str_take str_len];
    [reflexivity|].
  destruct (is_continuation c).
  - intros Hl. rewrite IH by assumption. reflexivity.
  - destruct n as [|n]; intros Hl; [lia|].
    rewrite IH by lia. reflexivity.
Qed.

Lemma str_take_prefix n s : String.prefix (str_take n s) s = true.
Proof.
  revert n. induction s as [|c s IH]; intros n; cbn [str_take]; [reflexivity|].
  assert (Hcons : ∀ t, String.prefix t s = true →
                       String.prefix (String c t) (String c s) = true).
  { intros t Ht. cbn [String.prefix].
    destruct (Ascii.ascii_dec c c) as [_|Hc]; [exact Ht | congruence]. }
  destruct (is_continuation c); [apply Hcons, IH|].
  destruct n as [|n]; [reflexivity | apply Hcons, IH].
Qed.

(** X3.  Whatever the database handle does, the [/test] response has
    exactly the six keys [backend], [database], [database_url],
    [database_name], [connection_status] and [collections], and [backend]
    always reads as running. *)
Theorem test_database_fields db :
  ∃ response,
    test_database db = inr response ∧
    dom response = diagnostic_fields ∧
    response !! "backend" = Some (PStr "✅ Running").
Proof.
  destruct db as [[[e | all]]|]; eexists; (split; [reflexivity|]);
    (split; [|reflexivity]); cbn [fst snd];
    unfold diagnostic_fields;
    rewrite !dom_insert_L, dom_singleton_L; set_solver.
Qed.

(** X4.  [connection_status] is [Connected] exactly when there is a handle
    and its [list_collection_names] returned; a missing handle or a raising
    one leaves it at [Not Connected], with no collection listed. *)
Theorem test_database_connection_status db :
  ∃ response,
    test_database db = inr response ∧
    match db with
    | Some (MkDatabase (inr all)) =>
        response !! "connection_status" = Some (PStr "Connected")
    | _ =>
        response !! "connection_status" = Some (PStr "Not Connected") ∧
        response !! "collections" = Some (PList [])
    end.
Proof.
  destruct db as [[[e | all]]|]; eexists; (split; [reflexivity|]).
  - split; reflexivity.
  - cbn [fst snd]. rewrite lookup_insert_ne by discriminate. apply lookup_insert_eq.
  - split; reflexivity.
Qed.

(** X5.  The field [database_url] is one of two flags: [Set] when
    [DATABASE_URL] holds a non-empty string, [Not Set] when it is absent or
    empty.  The field [database_name] echoes a non-empty [DATABASE_NAME] as
    it is and reads [Not Set] otherwise.  Neither field depends on the
    database handle. *)
Theorem test_database_environment db :
  ∃ response,
    test_database db = inr response ∧
    response !! "database_url" =
      Some (PStr match getenv "DATABASE_URL" with
                 | None | Some EmptyString => "❌ Not Set"
                 | Some (String _ _) => "✅ Set"
                 end) ∧
    response !! "database_name" =
      Some (PStr match getenv "DATABASE_NAME" with
                 | None | Some EmptyString => "❌ Not Set"
                 | Some (String c s) => String c s
                 end).
Proof.
  destruct db as [[[e | all]]|]; eexists; (split; [reflexivity|]);
    cbn [fst snd];
    (split; [destruct (getenv "DATABASE_URL") as [[|? ?]|]; reflexivity
            | destruct (getenv "DATABASE_NAME") as [[|? ?]|]; reflexivity]).
Qed.

(** X6.  When [list_collection_names] raises, the status string is the
    fixed prefix followed by a prefix of the exception text of at most 80
    code points, the whole text when it has no more than 80. *)
Theorem test_database_error_text db e :
  list_collection_names db = inl e →
  ∃ response shown,
    test_database (Some db) = inr response ∧
    response !! "database" = Some (PStr ("⚠️ Connected but error: " +:+ shown)) ∧
    (str_len shown ≤ 80)%nat ∧
    String.prefix shown (exc_str e) = true ∧
    ((str_len (exc_str e) ≤ 80)%nat → shown = exc_str e).
Proof.
  destruct db as [names]. cbn [list_collection_names]. intros ->.
  eexists _, (str_take 80 (exc_str e)). split; [reflexivity|].
  split; [apply lookup_insert_eq|].
  split; [apply str_take_length|].
  split; [apply str_take_prefix | apply str_take_short].
Qed.

(** ** Upstream requests, continued *)

Lemma requests_get_failed u hs t log c :
  upstream (MkRequest u hs t) = Failed c →
  requests_get u hs t log = (Raise (Unhandled c), log ++ [MkRequest u hs t]).
Proof. intros Hr. unfold requests_get. cbv zeta. rewrite Hr. reflexivity. Qed.

Lemma io_lift_bind {A B} (r : result A) (f : A → IO B) log :
  (io_lift r ≫= f) log =
    match r with
    | Ok a => f a log
    | Raise e => (Raise e, log)
    end.
Proof. destruct r; reflexivity. Qed.

Lemma io_lift_result_bind {A B} (r : result A) (f : A → result B) log :
  (io_lift r ≫= λ a, io_lift (f a)) log = (r ≫= f, log).
Proof. destruct r; reflexivity. Qed.

(** Once both requests are answered, the profile with status 200,
    [github_stats] ends with [stats_outcome] and has sent exactly the two
    requests. *)
Lemma github_stats_answered user log user_resp repos_resp :
  upstream (profile_request user) = Responded user_resp →
  resp_status user_resp = 200 →
  upstream (repos_request user 100) = Responded repos_resp →
  github_stats user log =
    (stats_outcome user_resp repos_resp,
     log ++ [profile_request user; repos_request user 100]).
Proof.
  intros Hup Hs Hup2. unfold github_stats. cbv zeta.
  erewrite io_bind_ok by (apply requests_get_responded; exact Hup).
  rewrite Hs. cbn [Z.eqb Pos.eqb negb].
  erewrite io_bind_ok by (apply requests_get_responded; exact Hup2).
  rewrite <- app_assoc. cbn [app].
  unfold stats_outcome.
  destruct (resp_status repos_resp =? 200);
    unfold io_lift, mbind, IO_bind, result_bind, mret, IO_ret; cbv beta;
    repeat case_match; simplify_eq; reflexivity.
Qed.

Lemma github_repos_answered user limit log resp :
  upstream (repos_request user (Z.min (default 12 limit) 100)) = Responded resp →
  github_repos user limit log =
    (listing_outcome resp,
     log ++ [repos_request user (Z.min (default 12 limit) 100)]).
Proof.
  intros Hup. unfold github_repos. cbv zeta.
  erewrite io_bind_ok by (apply requests_get_responded; exact Hup).
  unfold listing_outcome. destruct (negb _); reflexivity.
Qed.

Lemma sum_stars_app good rest acc :
  Forall counted good →
  sum_stars ((PDict <$> good) ++ rest) acc = sum_stars rest (acc + total_stars good).
Proof.
  intros Hall. revert acc.
  induction Hall as [|r good Hr _ IH]; intros acc.
  - cbn. f_equal. lia.
  - rewrite fmap_cons. cbn [app]. rewrite sum_stars_cons, IH by assumption.
    change (total_stars (r :: good)) with (star_count r + total_stars good).
    f_equal. lia.
Qed.


(** ** User stats, continued *)

(** X7.  [github_stats] always begins with the profile request and sends at
    most one more, the request for the 100 most recently updated
    repositories, which goes out exactly when the profile response has
    status 200. *)
Theorem github_stats_requests user log :
  (github_stats user log).2 =
    log ++ profile_request user ::
      match upstream (profile_request user) with
      | Responded r => if resp_status r =? 200 then [repos_request user 100] else []
      | Failed _ => []
      end.
Proof.
  destruct (upstream (profile_request user)) as [r|c] eqn:Hup.
  - destruct (resp_status r =? 200) eqn:Hs.
    + apply Z.eqb_eq in Hs.
      destruct (upstream (repos_request user 100)) as [r2|c2] eqn:Hup2.
      * erewrite github_stats_answered by eassumption. reflexivity.
      * unfold github_stats. cbv zeta.
        erewrite io_bind_ok by (apply requests_get_responded; exact Hup).
        rewrite Hs. cbn [Z.eqb Pos.eqb negb].
        erewrite io_bind_raise by (apply requests_get_failed; exact Hup2).
        rewrite <- app_assoc. reflexivity.
    + unfold github_stats. cbv zeta.
      erewrite io_bind_ok by (apply requests_get_responded; exact Hup).
      rewrite Hs. reflexivity.
  - unfold github_stats. cbv zeta.
    erewrite io_bind_raise by (apply requests_get_failed; exact Hup).
    reflexivity.
Qed.

(** X8.  An exception of [requests.get] is not handled by [github_stats]:
    it ends the handler (a server error) when it comes from the profile
    fetch and also when it comes from the repository-list fetch, although a
    repository list with an error status is tolerated. *)
Theorem github_stats_unreachable user log c :
  (upstream (profile_request user) = Failed c →
   github_stats user log = (Raise (Unhandled c), log ++ [profile_request user]) ∧
   http_status (github_stats user log).1 = 500) ∧
  (∀ user_resp,
     upstream (profile_request user) = Responded user_resp →
     resp_status user_resp = 200 →
     upstream (repos_request user 100) = Failed c →
     github_stats user log =
       (Raise (Unhandled c), log ++ [profile_request user; repos_request user 100]) ∧
     http_status (github_stats user log).1 = 500).
Proof.
  split.
  - intros Hup. unfold github_stats. cbv zeta.
    erewrite io_bind_raise by (apply requests_get_failed; exact Hup).
    split; reflexivity.
  - intros user_resp Hup Hs Hup2. unfold github_stats. cbv zeta.
    erewrite io_bind_ok by (apply requests_get_responded; exact Hup).
    rewrite Hs. cbn [Z.eqb Pos.eqb negb].
    erewrite io_bind_raise by (apply requests_get_failed; exact Hup2).
    rewrite <- app_assoc. split; reflexivity.
Qed.

(** X9.  One bad entry in a repository list with status 200 fails the whole
    of [github_stats], whatever the profile holds: [TypeError] for a star
    count that is present and null, [AttributeError] for an entry that is
    not an object.  The counts summed before it are lost. *)
Theorem github_stats_bad_entry user log user_resp repos_resp good bad rest :
  upstream (profile_request user) = Responded user_resp →
  resp_status user_resp = 200 →
  upstream (repos_request user 100) = Responded repos_resp →
  resp_status repos_resp = 200 →
  resp_json repos_resp = Some (PList ((PDict <$> good) ++ bad :: rest)) →
  Forall counted good →
  ((∃ r, bad = PDict r ∧ r !! "stargazers_count" = Some PNone) →
   (github_stats user log).1 = Raise (Unhandled "TypeError")) ∧
  ((∀ r, bad ≠ PDict r) →
   (github_stats user log).1 = Raise (Unhandled "AttributeError")).
Proof.
  intros Hup Hs Hup2 Hs2 Hj2 Hgood.
  erewrite github_stats_answered by eassumption. cbn [fst].
  unfold stats_outcome. rewrite Hs2. cbn [Z.eqb Pos.eqb].
  unfold json_of. rewrite Hj2. cbn [mbind result_bind py_iter].
  rewrite sum_stars_app by assumption. split.
  - intros (r & -> & Hnull). cbn [sum_stars py_get mbind result_bind].
    rewrite Hnull. reflexivity.
  - intros Hbad. cbn [sum_stars].
    destruct bad; try reflexivity. exfalso. eapply Hbad. reflexivity.
Qed.

(** X10.  The profile body is read only after the repository-list fetch: a
    profile response with status 200 whose body is not JSON, or is JSON but
    not an object, fails [github_stats] with both requests already sent. *)
Theorem github_stats_bad_profile user log user_resp repos_resp :
  upstream (profile_request user) = Responded user_resp →
  resp_status user_resp = 200 →
  upstream (repos_request user 100) = Responded repos_resp →
  resp_status repos_resp ≠ 200 →
  (github_stats user log).2 = log ++ [profile_request user; repos_request user 100] ∧
  (resp_json user_resp = None →
   (github_stats user log).1 = Raise (Unhandled "JSONDecodeError")) ∧
  (∀ v, resp_json user_resp = Some v → (∀ d, v ≠ PDict d) →
   (github_stats user log).1 = Raise (Unhandled "AttributeError")).
Proof.
  intros Hup Hs Hup2 Hs2.
  erewrite github_stats_answered by eassumption. cbn [fst snd].
  split; [reflexivity|].
  apply Z.eqb_neq in Hs2. unfold stats_outcome. rewrite Hs2.
  cbn [mbind result_bind]. unfold json_of. split.
  - intros ->. reflexivity.
  - intros v -> Hv. cbn [mbind result_bind].
    destruct v; try reflexivity. exfalso. eapply Hv. reflexivity.
Qed.

Lemma github_stats_log_cases user log :
  (github_stats user log).2 = log ++ [profile_request user] ∨
  (github_stats user log).2 = log ++ [profile_request user; repos_request user 100].
Proof.
  unfold github_stats. cbv zeta.
  destruct (upstream (profile_request user)) as [r|c] eqn:Hup.
  - erewrite io_bind_ok by (apply requests_get_responded; exact Hup).
    destruct (resp_status r =? 200) eqn:Hs; cbn [negb]; [|left; reflexivity].
    right. destruct (upstream (repos_request user 100)) as [r2|c2] eqn:Hup2.
    + apply Z.eqb_eq in Hs.
      pose proof (github_stats_answered user log r r2 Hup Hs Hup2) as Hrun.
      unfold github_stats in Hrun. cbv zeta in Hrun.
      erewrite io_bind_ok in Hrun by (apply requests_get_responded; exact Hup).
      rewrite Hs in Hrun. cbn [Z.eqb Pos.eqb negb] in Hrun.
      rewrite Hrun. reflexivity.
    + erewrite io_bind_raise by (apply requests_get_failed; exact Hup2).
      rewrite <- app_assoc. reflexivity.
  - left. erewrite io_bind_raise by (apply requests_get_failed; exact Hup).
    reflexivity.
Qed.

(** X11.  The headers of the upstream requests: [Accept] always,
    [Authorization] with the bearer token exactly when [GITHUB_TOKEN] is set
    and not empty, nothing else; every request of [github_stats] and of
    [github_repos] carries them, with a timeout of 10. *)
Theorem github_requests_headers :
  github_headers !! "Accept" = Some "application/vnd.github+json" ∧
  github_headers !! "Authorization" =
    match getenv "GITHUB_TOKEN" with
    | Some (String c s) => Some ("Bearer " +:+ String c s)
    | _ => None
    end ∧
  dom github_headers ⊆ {[ "Accept"; "Authorization" ]} ∧
  ∀ user limit rq,
    rq ∈ (github_stats user []).2 ∨ rq ∈ (github_repos user limit []).2 →
    headers rq = github_headers ∧ timeout rq = 10.
Proof.
  split; [|split; [|split]].
  - unfold github_headers. destruct (getenv "GITHUB_TOKEN") as [[|c s]|]; reflexivity.
  - unfold github_headers. destruct (getenv "GITHUB_TOKEN") as [[|c s]|]; reflexivity.
  - unfold github_headers. destruct (getenv "GITHUB_TOKEN") as [[|c s]|]; cbv zeta;
      rewrite ?dom_insert_L, dom_singleton_L; set_solver.
  - intros user limit rq [Hin | Hin].
    + destruct (github_stats_log_cases user []) as [Hlog | Hlog];
        rewrite Hlog in Hin; cbn [app] in Hin.
      * apply list_elem_of_singleton in Hin as ->. split; reflexivity.
      * apply elem_of_cons in Hin as [-> | Hin]; [split; reflexivity|].
        apply list_elem_of_singleton in Hin as ->. split; reflexivity.
    + assert (Hlog : (github_repos user limit []).2
                     = [repos_request user (Z.min (default 12 limit) 100)]).
      { destruct (upstream (repos_request user (Z.min (default 12 limit) 100)))
          as [r|c] eqn:Hup.
        - erewrite github_repos_answered by eassumption. reflexivity.
        - unfold github_repos. cbv zeta.
          erewrite io_bind_raise by (apply requests_get_failed; exact Hup).
          reflexivity. }
      rewrite Hlog in Hin. apply list_elem_of_singleton in Hin as ->.
      split; reflexivity.
Qed.

(** ** Repository listing, continued *)

(** X12.  An exception of [requests.get] ends [github_repos] (a server
    error) after its single request. *)
Theorem github_repos_unreachable user limit log c :
  upstream (repos_request user (Z.min (default 12 limit) 100)) = Failed c →
  github_repos user limit log =
    (Raise (Unhandled c),
     log ++ [repos_request user (Z.min (default 12 limit) 100)]) ∧
  http_status (github_repos user limit log).1 = 500.
Proof.
  intros Hup. unfold github_repos. cbv zeta.
  erewrite io_bind_raise by (apply requests_get_failed; exact Hup).
  split; reflexivity.
Qed.


(** X14.  The projection is idempotent: projecting an entry of the listing
    again gives the same entry. *)
Theorem repo_projection_idempotent r o :
  repo_projection (PDict r) = Ok o → repo_projection (PDict o) = Ok o.
Proof.
  rewrite repo_projection_dict. intros [= <-].
  rewrite repo_projection_dict. reflexivity.
Qed.

(** X15.  Every entry of the listing has all nine fields even when the
    repository lacks them: a missing field reads null, except [topics],
    which reads as the empty list; a [topics] that is present and null stays
    null. *)
Theorem repo_projection_missing r o :
  repo_projection (PDict r) = Ok o →
  (r !! "topics" = None → o !! "topics" = Some (PList [])) ∧
  (r !! "topics" = Some PNone → o !! "topics" = Some PNone) ∧
  (∀ k, k ∈ projection_fields → k ≠ "topics" → r !! k = None →
        o !! k = Some PNone).
Proof.
  rewrite repo_projection_dict. intros [= <-].
  split; [|split].
  - intros Ht.
    rewrite (proj2 (projection_of_fields r) "topics") by (unfold projection_fields; set_solver).
    unfold projected. rewrite Ht. reflexivity.
  - intros Ht.
    rewrite (proj2 (projection_of_fields r) "topics") by (unfold projection_fields; set_solver).
    unfold projected. rewrite Ht. reflexivity.
  - intros k Hk Hne Hnone.
    rewrite (proj2 (projection_of_fields r) k Hk).
    unfold projected. rewrite Hnone, bool_decide_false by assumption. reflexivity.
Qed.

(** X16.  The two GitHub handlers agree: with a limit of 100 or more
    [github_repos] sends the very request whose answer [github_stats] sums,
    so for a well-formed answer the [stars] of the stats are the sum of the
    star counts shown in the listing. *)
Theorem github_stats_agrees_with_listing
    user limit log log' user_resp profile repos_resp repos :
  100 ≤ limit →
  upstream (profile_request user) = Responded user_resp →
  resp_status user_resp = 200 →
  resp_json user_resp = Some (PDict profile) →
  upstream (repos_request user 100) = Responded repos_resp →
  resp_status repos_resp = 200 →
  resp_json repos_resp = Some (PList (PDict <$> repos)) →
  Forall counted repos →
  ∃ listing stats,
    github_repos user (Some limit) log' = (Ok listing, log' ++ [repos_request user 100]) ∧
    (github_stats user log).1 = Ok stats ∧
    stats !! "stars" = Some (PInt (total_stars listing)).
Proof.
  intros Hl Hup Hs Hj Hup2 Hs2 Hj2 Hcounted.
  assert (Hmin : Z.min (default 12 (Some limit)) 100 = 100)
    by (change (default 12 (Some limit)) with limit; lia).
  exists (projection_of <$> repos), (stats_of profile (total_stars repos)).
  split; [|split].
  - erewrite github_repos_answered by (rewrite Hmin; exact Hup2).
    rewrite Hmin. f_equal.
    unfold listing_outcome. rewrite Hs2. cbn [Z.eqb Pos.eqb negb].
    unfold json_of. rewrite Hj2. cbn [mbind result_bind py_iter].
    apply comprehension_projection.
  - erewrite github_stats_answered by eassumption. cbn [fst].
    unfold stats_outcome. rewrite Hs2. cbn [Z.eqb Pos.eqb].
    unfold json_of. rewrite Hj, Hj2. cbn [mbind result_bind py_iter].
    rewrite sum_stars_counted by assumption. reflexivity.
  - assert (Heq : total_stars (projection_of <$> repos) = total_stars repos).
    { clear. induction repos as [|r repos IH]; [reflexivity|].
      rewrite fmap_cons.
      change (total_stars (projection_of r :: (projection_of <$> repos)))
        with (star_count (projection_of r) + total_stars (projection_of <$> repos)).
      change (total_stars (r :: repos)) with (star_count r + total_stars repos).
      rewrite IH. f_equal. unfold star_count.
      rewrite (proj2 (projection_of_fields r) "stargazers_count")
        by (unfold projection_fields; set_solver).
      unfold projected. destruct (r !! "stargazers_count") as [[]|]; reflexivity. }
    rewrite Heq. reflexivity.
Qed.

(** ** List routes and blog lookup, continued *)

Lemma matches_empty (d : gmap string pyval) : matches ∅ d.
Proof. unfold matches. apply map_Forall_empty. Qed.

Lemma filter_all {A} (P : A → Prop) `{!∀ x, Decision (P x)} (l : list A) :
  Forall P l → filter P l = l.
Proof.
  induction 1 as [|x l Hx _ IH]; [reflexivity|].
  rewrite filter_cons_True by assumption. rewrite IH. reflexivity.
Qed.

Lemma filter_none {A} (P : A → Prop) `{!∀ x, Decision (P x)} (l : list A) :
  Forall (λ x, ¬ P x) l → filter P l = [].
Proof.
  induction 1 as [|x l Hx _ IH]; [reflexivity|].
  rewrite filter_cons_False by assumption. exact IH.
Qed.

Lemma get_documents_unfiltered st c limit :
  get_documents st c ∅ limit = take (Z.to_nat limit) (collection st c).
Proof.
  unfold get_documents. rewrite filter_all; [reflexivity|].
  apply Forall_forall. intros d _. apply matches_empty.
Qed.

Lemma get_documents_same_collection st st' c flt limit :
  collection st' c = collection st c →
  get_documents st' c flt limit = get_documents st c flt limit.
Proof. intros Hc. unfold get_documents. rewrite Hc. reflexivity. Qed.

Lemma list_route_serialized st e flag limit :
  ∃ flt, list_route st e flag limit =
           serialize_all
             (get_documents st (route_collection e) flt
                (default (default_ceiling e) limit)).
Proof. destruct e; eexists; reflexivity. Qed.

(** X17.  The internal identifier never leaves the API: no document
    returned by a list route or by [get_blog] has the field [_id]. *)
Theorem no_internal_id_in_views st :
  (∀ e flag limit view,
     view ∈ list_route st e flag limit →
     ∃ d', view = Some d' ∧ d' !! "_id" = None) ∧
  (∀ slug view,
     get_blog st slug = Ok view → ∃ d', view = Some d' ∧ d' !! "_id" = None).
Proof.
  split.
  - intros e flag limit view.
    destruct (list_route_serialized st e flag limit) as [flt ->].
    unfold serialize_all. intros Hin.
    apply list_elem_of_fmap in Hin as (d & -> & _).
    destruct (serialize_doc_some d) as (d' & Hs & Hid & _).
    exists d'. split; assumption.
  - intros slug view. unfold get_blog.
    destruct (get_documents _ _ _ _) as [|item rest]; [discriminate|].
    intros [= <-].
    destruct (serialize_doc_some item) as (d' & Hs & Hid & _).
    exists d'. split; assumption.
Qed.

(** X18.  [list_projects] without [featured] applies no filter: it returns
    the first [limit] stored projects, serialized, featured or not; with an
    explicit [featured] value every project returned has that value. *)
Theorem list_projects_featured st limit :
  list_projects st None limit =
    serialize_all (take (Z.to_nat (default 50 limit)) (collection st "project")) ∧
  ∀ b : bool,
    Forall (λ view, ∃ d', view = Some d' ∧ d' !! "featured" = Some (PBool b))
      (list_projects st (Some (Some b)) limit).
Proof.
  split.
  - unfold list_projects. cbv zeta.
    change (default None None) with (@None bool). cbv iota.
    rewrite get_documents_unfiltered. reflexivity.
  - intros b. unfold list_projects, serialize_all. cbv zeta.
    apply Forall_fmap, Forall_forall. intros d Hd.
    apply get_documents_elem in Hd as [_ Hm].
    apply (proj1 (matches_singleton "featured" (PBool b) d)) in Hm.
    destruct (serialize_doc_some d) as (d' & Hs & _ & _ & _ & Hk).
    exists d'. split; [exact Hs|].
    rewrite Hk by discriminate. assumption.
Qed.

(** X19.  [get_blog] does not look at [published]: an unpublished post is
    returned by its slug, although the default listing never shows it. *)
Theorem get_blog_ignores_published st slug before d after :
  collection st "blogpost" = before ++ d :: after →
  Forall (λ x, x !! "slug" ≠ Some (PStr slug)) before →
  d !! "slug" = Some (PStr slug) →
  d !! "published" = Some (PBool false) →
  get_blog st slug = Ok (serialize_doc (Some d)) ∧
  ∀ limit, serialize_doc (Some d) ∉ list_blog st None limit.
Proof.
  intros Hcoll Hbefore Hslug Hpub. split.
  - unfold get_blog, get_documents. rewrite Hcoll, filter_app.
    rewrite filter_none.
    + rewrite filter_cons_True by (apply matches_singleton; assumption).
      change (Z.to_nat 1) with 1%nat. reflexivity.
    + eapply Forall_impl; [exact Hbefore|].
      intros x Hx Hm. apply Hx. apply matches_singleton in Hm. assumption.
  - intros limit Hin. unfold list_blog, serialize_all in Hin. cbv zeta in Hin.
    apply list_elem_of_fmap in Hin as (d0 & Heq & Hd0).
    apply get_documents_elem in Hd0 as [_ Hm].
    apply (proj1 (matches_singleton "published" (PBool true) d0)) in Hm.
    destruct (serialize_doc_some d) as (d' & Hs & _ & _ & _ & Hk).
    destruct (serialize_doc_some d0) as (d0' & Hs0 & _ & _ & _ & Hk0).
    rewrite Hs, Hs0 in Heq. injection Heq as ->.
    specialize (Hk "published"). specialize (Hk0 "published").
    rewrite Hk0 in Hk by discriminate.
    rewrite Hm, Hpub in Hk. discriminate Hk; discriminate.
Qed.

(** ** Creating documents *)

Lemma stored_fields_no_id rq : stored_fields rq !! "_id" = None.
Proof. destruct rq; reflexivity. Qed.

Lemma serialize_stored (fields : gmap string pyval) _id :
  (∀ hex, py_str (PObjectId hex) = hex) →
  fields !! "_id" = None →
  serialize_doc (Some (<["_id" := PObjectId _id]> fields))
    = Some (<["id" := PStr _id]> fields).
Proof.
  intros Hstr Hnone. unfold serialize_doc.
  rewrite bool_decide_false by apply insert_non_empty.
  rewrite lookup_insert_eq, Hstr, delete_insert_eq, delete_id by assumption.
  reflexivity.
Qed.

Lemma create_and_return_id_stores st c data :
  ∃ _id st',
    create_and_return_id (Some st) c data = (Ok {[ "id" := PStr _id ]}, Some st') ∧
    collection st' c = collection st c ++ [<["_id" := PObjectId _id]> data] ∧
    ∀ c', c' ≠ c → collection st' c' = collection st c'.
Proof.
  unfold create_and_return_id, create_document. cbv zeta.
  eexists _, _. split; [reflexivity|]. split.
  - unfold collection at 1. cbn [collections]. rewrite lookup_insert_eq. reflexivity.
  - intros c' Hc. unfold collection at 1. cbn [collections].
    rewrite lookup_insert_ne by congruence. reflexivity.
Qed.

(** X20.  Each create route answers with the new identifier alone and
    appends the document, stamped with that identifier, to the collection
    that the list route of the same entity reads; no other collection
    changes. *)
Theorem create_route_stores st rq :
  ∃ _id st',
    create_route (Some st) rq = (Ok {[ "id" := PStr _id ]}, Some st') ∧
    collection st' (route_collection (listed_by rq)) =
      collection st (route_collection (listed_by rq))
        ++ [<["_id" := PObjectId _id]> (stored_fields rq)] ∧
    ∀ c, c ≠ route_collection (listed_by rq) → collection st' c = collection st c.
Proof. destruct rq; apply create_and_return_id_stores. Qed.

(** X21.  A created document can be read back: for every entity but blog
    posts, listing with a limit above the size of the collection returns
    what it returned before followed by the new document, whose [id] is the
    identifier the create route answered with. *)
Theorem create_then_list st rq limit :
  (∀ hex, py_str (PObjectId hex) = hex) →
  listed_by rq ≠ Blog →
  Z.of_nat (length (collection st (route_collection (listed_by rq)))) < limit →
  ∃ _id st',
    create_route (Some st) rq = (Ok {[ "id" := PStr _id ]}, Some st') ∧
    list_route st' (listed_by rq) None (Some limit) =
      list_route st (listed_by rq) None (Some limit)
        ++ [Some (<["id" := PStr _id]> (stored_fields rq))].
Proof.
  intros Hstr Hblog Hlen.
  assert (Hstored : ∃ _id st',
            create_route (Some st) rq = (Ok {[ "id" := PStr _id ]}, Some st') ∧
            collection st' (route_collection (listed_by rq)) =
              collection st (route_collection (listed_by rq))
                ++ [<["_id" := PObjectId _id]> (stored_fields rq)] ∧
            ∀ c, c ≠ route_collection (listed_by rq) → collection st' c = collection st c)
    by (destruct rq; apply create_and_return_id_stores).
  destruct Hstored as (_id & st' & Hcreate & Hcoll & _).
  exists _id, st'. split; [exact Hcreate|].
  assert (Hlist : ∀ s, list_route s (listed_by rq) None (Some limit) =
            serialize_all
              (take (Z.to_nat limit) (collection s (route_collection (listed_by rq))))).
  { intros s. destruct rq; try (exfalso; apply Hblog; reflexivity);
      cbn [listed_by list_route route_collection];
      unfold list_projects, list_testimonials, list_guestbook, list_bucket, list_uses;
      cbv zeta; apply (f_equal serialize_all), get_documents_unfiltered. }
  rewrite !Hlist, Hcoll.
  rewrite (take_ge (_ ++ _)) by (rewrite length_app; cbn [length]; lia).
  rewrite take_ge by lia.
  unfold serialize_all. rewrite fmap_app. cbn [fmap list_fmap].
  rewrite serialize_stored by (assumption || apply stored_fields_no_id).
  reflexivity.
Qed.

(** X22.  A blog post created without [published] is a draft: the default
    listing is the same before and after, and when the slug was not used
    before, [get_blog] returns the new post. *)
Theorem create_blog_draft st title slug excerpt content tags cover_image published_at :
  (∀ hex, py_str (PObjectId hex) = hex) →
  Forall (λ x, x !! "slug" ≠ Some (PStr slug)) (collection st "blogpost") →
  ∃ _id st',
    create_blog (Some st)
      (BlogPost_new title slug excerpt content tags cover_image None published_at)
      = (Ok {[ "id" := PStr _id ]}, Some st') ∧
    (∀ limit, list_blog st' None limit = list_blog st None limit) ∧
    get_blog st' slug =
      Ok (Some (<["id" := PStr _id]>
                  (BlogPost_dump
                     (BlogPost_new title slug excerpt content tags cover_image
                        None published_at)))).
Proof.
  intros Hstr Hfree.
  set (post := BlogPost_new title slug excerpt content tags cover_image None published_at).
  destruct (create_and_return_id_stores st "blogpost" (BlogPost_dump post))
    as (_id & st' & Hcreate & Hcoll & _).
  exists _id, st'. split; [exact Hcreate|].
  assert (Hslug : (<["_id" := PObjectId _id]> (BlogPost_dump post)) !! "slug"
                  = Some (PStr slug)) by reflexivity.
  assert (Hpub : (<["_id" := PObjectId _id]> (BlogPost_dump post)) !! "published"
                 = Some (PBool false)) by reflexivity.
  split.
  - intros limit. unfold list_blog, get_documents. cbv zeta.
    rewrite Hcoll, filter_app.
    rewrite (filter_cons_False _ _ []).
    + rewrite filter_nil, app_nil_r. reflexivity.
    + intros Hm.
      apply (proj1 (matches_singleton "published" (PBool true) _)) in Hm.
      rewrite Hpub in Hm. discriminate Hm.
  - unfold get_blog, get_documents. rewrite Hcoll, filter_app.
    rewrite filter_none.
    + rewrite filter_cons_True by (apply matches_singleton; exact Hslug).
      change (Z.to_nat 1) with 1%nat. cbn [app take].
      rewrite serialize_stored; [reflexivity | assumption | reflexivity].
    + eapply Forall_impl; [exact Hfree|].
      intros x Hx Hm. apply Hx. apply matches_singleton in Hm. assumption.
Qed.

(** ** Contact, continued *)

(** X23.  No create route handles a failure of the storage layer: with the
    store unreachable the exception leaves the handler (a server error) and
    nothing is stored; for [contact] this is so once the body has passed
    validation. *)
Theorem create_store_unreachable :
  (∀ rq, create_route None rq = (Raise (Unhandled "StorageUnavailable"), None) ∧
         http_status (create_route None rq).1 = 500) ∧
  (∀ body message,
     validate_ContactMessage body = inr message →
     post_contact None body = (Raise (Unhandled "StorageUnavailable"), None) ∧
     http_status (post_contact None body).1 = 500).
Proof.
  split.
  - intros rq. destruct rq; split; reflexivity.
  - intros body message Hv. unfold post_contact. rewrite Hv. split; reflexivity.
Qed.

(** X24.  Contact messages are write-only: whatever the body, a request to
    [/api/contact] changes nothing that a list route or [get_blog]
    returns. *)
Theorem contact_is_write_only st body r db' :
  post_contact (Some st) body = (r, db') →
  ∃ st', db' = Some st' ∧
         (∀ e flag limit, list_route st' e flag limit = list_route st e flag limit) ∧
         (∀ slug, get_blog st' slug = get_blog st slug).
Proof.
  unfold post_contact.
  destruct (validate_ContactMessage body) as [errs | message].
  - intros [= <- <-]. exists st. repeat split; reflexivity.
  - unfold contact, create_document. cbv zeta. intros [= <- <-].
    eexists. split; [reflexivity|].
    set (st' := {| collections := _; next_id := _ |}).
    assert (Hother : ∀ c, c ≠ "contactmessage" → collection st' c = collection st c).
    { intros c Hc. unfold collection, st'. cbn [collections].
      rewrite lookup_insert_ne by congruence. reflexivity. }
    split.
    + intros e flag limit.
      destruct e; cbn [list_route];
        unfold list_projects, list_testimonials, list_guestbook, list_bucket,
          list_uses, list_blog; cbv zeta;
        rewrite (get_documents_same_collection st st') by (apply Hother; discriminate);
        reflexivity.
    + intros slug. unfold get_blog.
      rewrite (get_documents_same_collection st st') by (apply Hother; discriminate).
      reflexivity.
Qed.

(** X25.  The fields of [ContactMessage]: [name], [email] and [message] are
    required, and a body that lacks one is rejected with a missing-field
    error on it; [subject] and [source] are optional, absent or null, and a
    body with the three required strings and a valid address validates to
    the message that holds them, the address as normalised by the check. *)
Theorem ContactMessage_fields (d : gmap string pyval) :
  (∀ f, f ∈ ["name"; "email"; "message"] → d !! f = None →
     ∃ errs, validate_ContactMessage (PDict d) = inl errs ∧
             FieldError f Missing ∈ errs) ∧
  (∀ n e e' m,
     d !! "name" = Some (PStr n) → d !! "email" = Some (PStr e) →
     validate_email e = Some e' → d !! "message" = Some (PStr m) →
     d !! "subject" = None ∨ d !! "subject" = Some PNone →
     d !! "source" = None ∨ d !! "source" = Some PNone →
     validate_ContactMessage (PDict d) = inr (MkContactMessage n e' m None None)).
Proof.
  split.
  - intros f Hf Hnone. unfold validate_ContactMessage. cbv zeta.
    assert (Hcases : f = "name" ∨ f = "email" ∨ f = "message").
    { apply elem_of_cons in Hf as [-> | Hf]; [auto|].
      apply elem_of_cons in Hf as [-> | Hf]; [auto|].
      apply list_elem_of_singleton in Hf as ->. auto. }
    destruct Hcases as [-> | [-> | ->]].
    + assert (Hr : required_str d "name" = inl [FieldError "name" Missing])
        by (unfold required_str; rewrite Hnone; reflexivity).
      rewrite Hr. eexists. split; [reflexivity|]. left.
    + assert (Hr : email_str d "email" = inl [FieldError "email" Missing])
        by (unfold email_str; rewrite Hnone; reflexivity).
      rewrite Hr.
      destruct (required_str d "name"); cbn [violations];
        (eexists; split; [reflexivity|]);
        apply elem_of_app; right; left.
    + assert (Hr : required_str d "message" = inl [FieldError "message" Missing])
        by (unfold required_str; rewrite Hnone; reflexivity).
      rewrite Hr.
      destruct (required_str d "name"), (email_str d "email"); cbn [violations];
        (eexists; split; [reflexivity|]);
        apply elem_of_app; right; apply elem_of_app; right; left.
  - intros n e e' m Hn He He' Hm Hsub Hsrc.
    unfold validate_ContactMessage, required_str, email_str, optional_str. cbv zeta.
    rewrite Hn, He, He', Hm.
    destruct Hsub as [-> | ->], Hsrc as [-> | ->]; reflexivity.
Qed.

End Handlers.

(** * The statements at concrete inputs *)

Example serialize_doc_sample :
  serialize_doc sample_str (Some sample_post) =
    Some {[ "id" := PStr "65f0c0ffee"; "title" := PStr "Hello";
            "slug" := PStr "hello"; "published" := PBool true ]}.
Proof. vm_compute. reflexivity. Qed.

Example list_blog_sample :
  list_blog sample_str sample_store None None =
    [serialize_doc sample_str (Some sample_post)] ∧
  list_blog sample_str sample_store (Some (Some false)) None =
    [serialize_doc sample_str (Some sample_draft)].
Proof. split; vm_compute; reflexivity. Qed.

(** The slice counts code points: two-byte characters are kept whole. *)
Example str_take_code_points :
  str_take 2 "héllo" = "hé" ∧ str_len "héllo" = 5%nat ∧
  str_take 80 "ééééé" = "ééééé".
Proof. repeat split; vm_compute; reflexivity. Qed.

(** A star count that is present and null is not a missing one: [int(None)]
    raises. *)
Example py_int_null : py_int sample_int PNone = Raise (Unhandled "TypeError").
Proof. reflexivity. Qed.

Example github_stats_sample :
  (github_stats sample_int sample_getenv sample_upstream "octocat" []).1 =
    Ok {[ "followers" := PInt 42; "public_repos" := PInt 8; "stars" := PInt 5 ]}.
Proof. vm_compute. reflexivity. Qed.

Example repos_request_sample :
  url (repos_request sample_getenv "octocat" (-3)) =
    "https://api.github.com/users/octocat/repos?per_page=-3&sort=updated".
Proof. vm_compute. reflexivity. Qed.

Lemma serialize_doc_public_id_witness :
  ∃ d', serialize_doc sample_str (Some sample_post) = Some d' ∧
        d' !! "_id" = None ∧
        d' !! "id" = Some (PStr "65f0c0ffee") ∧
        d' !! "title" = Some (PStr "Hello").
Proof.
  destruct (proj1 (proj2 (serialize_doc_public_id sample_str)) sample_post)
    as (d' & Hs & Hid & Hpub & _ & Hk).
  exists d'. split; [exact Hs|]. split; [exact Hid|]. split; [exact Hpub|].
  rewrite (Hk "title"); [reflexivity | discriminate | discriminate].
Defined.

(** C5 as stated fails for a negative limit: the route returns no document,
    and zero exceeds the requested limit. *)
Lemma list_route_negative_limit :
  ¬ (Z.of_nat (length (list_route sample_str sample_store Blog None (Some (-1))))
       ≤ default (default_ceiling Blog) (Some (-1))).
Proof. vm_compute. intros H. apply H. reflexivity. Qed.

Lemma list_route_bounded_witness :
  0 ≤ default (default_ceiling Blog) (Some 1) ∧
  Z.of_nat (length (list_route sample_str sample_store Blog (Some (Some false)) (Some 1)))
    ≤ default (default_ceiling Blog) (Some 1).
Proof.
  split; [cbn; lia|].
  apply (list_route_bounded sample_str sample_store Blog (Some (Some false)) (Some 1)).
  cbn. lia.
Defined.

Lemma get_blog_by_slug_witness :
  get_blog sample_str sample_store "missing" = Raise (HTTPException 404 "Post not found") ∧
  ∃ found, found !! "slug" = Some (PStr "hello") ∧
           get_blog sample_str sample_store "hello" = Ok (serialize_doc sample_str (Some found)).
Proof.
  split.
  - apply (proj1 (get_blog_by_slug sample_str sample_store "missing")).
    intros d Hd. vm_compute in Hd.
    apply list_elem_of_In in Hd.
    destruct Hd as [<- | [<- | []]]; vm_compute; discriminate.
  - destruct (proj2 (get_blog_by_slug sample_str sample_store "hello") sample_post)
      as (found & _ & _ & _ & _ & Hslug & Hget & _).
    + vm_compute. right. left.
    + reflexivity.
    + exists found. split; [exact Hslug | exact Hget].
Defined.

Lemma contact_validation_witness :
  (∃ errs,
     post_contact sample_email (Some sample_store) (PDict sample_bad_contact)
       = (Raise (RequestValidationError errs), Some sample_store) ∧
     FieldError "email" MalformedEmail ∈ errs) ∧
  (∃ _id st',
     post_contact sample_email (Some sample_store) (PDict sample_contact)
       = (Ok {[ "id" := PStr _id; "status" := PStr "received" ]}, Some st') ∧
     length (collection st' "contactmessage") = 1%nat).
Proof.
  split.
  - destruct (proj1 (contact_validation sample_email (Some sample_store)
                       (PDict sample_bad_contact))
                sample_bad_contact "not-an-email")
      as (errs & Hpost & Herr & _); [reflexivity | reflexivity | reflexivity |].
    exists errs. split; [exact Hpost | exact Herr].
  - destruct (proj2 (proj2 (contact_validation sample_email (Some sample_store)
                              (PDict sample_contact)))
                (MkContactMessage "Ada" "ada@example.org" "Hello" None None)
                sample_store)
      as (_id & st' & Hpost & Hcoll & _); [reflexivity | reflexivity |].
    exists _id, st'. split; [exact Hpost|]. rewrite Hcoll. reflexivity.
Defined.

(** C3 as stated fails for a negative limit: the upstream answers with an
    empty list, the handler returns it, and its length exceeds
    [min(-1, 100)]. *)
Lemma github_repos_negative_limit :
  ∃ out,
    (github_repos sample_getenv sample_upstream "nobody" (Some (-1)) []).1 = Ok out ∧
    ¬ (Z.of_nat (length out) ≤ Z.min (-1) 100).
Proof.
  exists []. split; [vm_compute; reflexivity|].
  vm_compute. intros H. apply H. reflexivity.
Qed.

Lemma github_repos_projection_witness :
  ∃ out,
    (github_repos sample_getenv sample_upstream "octocat" (Some 5) []).1 = Ok out ∧
    length out = 2%nat ∧
    Forall (λ o, dom o = projection_fields) out.
Proof.
  destruct (github_repos_projection sample_getenv sample_upstream "octocat" (Some 5) []
              (MkResponse 200 "(repositories)" (Some (PList (PDict <$> sample_repos)))))
    as (_ & _ & Hok); [reflexivity|].
  destruct (Hok sample_repos) as (out & Hout & _ & Hlen & _ & Hdom & _);
    [reflexivity | reflexivity |].
  exists out. split; [exact Hout|]. split; [exact Hlen | exact Hdom].
Defined.

(** C1 as stated fails when the repository-list fetch fails by raising: the
    profile is fetched with status 200, [requests.get] times out on the
    repository list, and the operation ends with a server error instead of
    answering 200 with a star sum of 0. *)
Lemma github_stats_secondary_timeout :
  sample_upstream_with sample_profile_response (Failed "Timeout")
    (profile_request sample_getenv "octocat") = Responded sample_profile_response ∧
  resp_status sample_profile_response = 200 ∧
  sample_upstream_with sample_profile_response (Failed "Timeout")
    (repos_request sample_getenv "octocat" 100) = Failed "Timeout" ∧
  (github_stats sample_int sample_getenv
     (sample_upstream_with sample_profile_response (Failed "Timeout")) "octocat" []).1
    = Raise (Unhandled "Timeout") ∧
  http_status
    (github_stats sample_int sample_getenv
       (sample_upstream_with sample_profile_response (Failed "Timeout")) "octocat" []).1
    ≠ 200.
Proof.
  split; [reflexivity|]. split; [reflexivity|]. split; [reflexivity|].
  split; [vm_compute; reflexivity|].
  vm_compute. discriminate.
Qed.

Lemma github_stats_asymmetric_failure_witness :
  (github_stats sample_int sample_getenv sample_upstream "ghost" []).1
    = Raise (HTTPException 404 "Not Found") ∧
  (github_stats sample_int sample_getenv sample_upstream "busy" []).1
    = Ok (stats_of sample_profile 0).
Proof.
  split.
  - destruct (github_stats_asymmetric_failure sample_int sample_getenv sample_upstream
                "ghost" [] (MkResponse 404 "Not Found" None))
      as [Hfail _]; [reflexivity|].
    destruct Hfail as [Hraise _]; [discriminate|].
    rewrite Hraise. reflexivity.
  - destruct (github_stats_asymmetric_failure sample_int sample_getenv sample_upstream
                "busy" [] (MkResponse 200 "(profile)" (Some (PDict sample_profile))))
      as [_ Hsoft]; [reflexivity|].
    destruct (Hsoft sample_profile (MkResponse 403 "rate limit exceeded" None))
      as (Hok & _); [reflexivity | reflexivity | reflexivity | discriminate |].
    rewrite Hok. reflexivity.
Defined.

Lemma github_stats_success_witness :
  (github_stats sample_int sample_getenv sample_upstream "octocat" []).1
    = Ok (stats_of sample_profile 5).
Proof.
  destruct (github_stats_success sample_int sample_getenv sample_upstream "octocat" []
              (MkResponse 200 "(profile)" (Some (PDict sample_profile)))
              sample_profile
              (MkResponse 200 "(repositories)" (Some (PList (PDict <$> sample_repos))))
              sample_repos)
    as (Hok & _);
    [reflexivity | reflexivity | reflexivity | reflexivity | reflexivity
    | reflexivity | | ].
  - constructor; [right; exists 5; reflexivity|].
    constructor; [left; reflexivity | constructor].
  - rewrite Hok. reflexivity.
Defined.

(** * The further properties at concrete inputs *)

Lemma serialize_doc_fields_witness :
  dom (<["id" := PStr "65f0c0ffee"]> (delete "_id" sample_post))
    = {[ "id" ]} ∪ dom sample_post ∖ {[ "_id" ]}.
Proof.
  destruct (serialize_doc_fields sample_str sample_post
              (<["id" := PStr "65f0c0ffee"]> (delete "_id" sample_post)))
    as [Hdom _]; [reflexivity|].
  rewrite Hdom. rewrite decide_True; [reflexivity|].
  apply elem_of_dom. eexists. reflexivity.
Defined.

Lemma test_database_error_text_witness :
  ∃ response,
    test_database sample_getenv (Some sample_database) = inr response ∧
    response !! "database"
      = Some (PStr ("⚠️ Connected but error: " +:+ "connection refused")).
Proof.
  destruct (test_database_error_text sample_getenv sample_database
              (PyExc "ServerSelectionTimeoutError" "connection refused"))
    as (response & shown & Hrun & Hfield & _ & _ & Hshort); [reflexivity|].
  exists response. split; [exact Hrun|].
  rewrite Hfield, Hshort; [reflexivity | vm_compute; lia].
Defined.

Lemma github_stats_unreachable_witness :
  (github_stats sample_int sample_getenv sample_offline "octocat" []).1
    = Raise (Unhandled "ConnectionError") ∧
  (github_stats sample_int sample_getenv
     (sample_upstream_with sample_profile_response (Failed "Timeout")) "octocat" []).1
    = Raise (Unhandled "Timeout").
Proof.
  split.
  - destruct (proj1 (github_stats_unreachable sample_int sample_getenv sample_offline
                       "octocat" [] "ConnectionError"))
      as [Hrun _]; [reflexivity|].
    rewrite Hrun. reflexivity.
  - destruct (proj2 (github_stats_unreachable sample_int sample_getenv
                       (sample_upstream_with sample_profile_response (Failed "Timeout"))
                       "octocat" [] "Timeout") sample_profile_response)
      as [Hrun _]; [reflexivity | reflexivity | reflexivity |].
    rewrite Hrun. reflexivity.
Defined.

Lemma github_stats_bad_entry_witness :
  (github_stats sample_int sample_getenv
     (sample_upstream_with sample_profile_response
        (Responded (MkResponse 200 "(repositories)" (Some (PList sample_null_stars)))))
     "octocat" []).1 = Raise (Unhandled "TypeError") ∧
  (github_stats sample_int sample_getenv
     (sample_upstream_with sample_profile_response
        (Responded (MkResponse 200 "(repositories)" (Some (PList sample_mixed_entries)))))
     "octocat" []).1 = Raise (Unhandled "AttributeError").
Proof.
  assert (Hcounted : Forall counted sample_repos).
  { constructor; [right; exists 5; reflexivity|].
    constructor; [left; reflexivity | constructor]. }
  split.
  - apply (github_stats_bad_entry sample_int sample_getenv _ "octocat" []
             sample_profile_response
             (MkResponse 200 "(repositories)" (Some (PList sample_null_stars)))
             sample_repos (PDict {[ "stargazers_count" := PNone ]}) []);
      try reflexivity; [exact Hcounted|].
    eexists. split; reflexivity.
  - apply (github_stats_bad_entry sample_int sample_getenv _ "octocat" []
             sample_profile_response
             (MkResponse 200 "(repositories)" (Some (PList sample_mixed_entries)))
             sample_repos (PStr "oops") []);
      try reflexivity; [exact Hcounted|].
    intros r. discriminate.
Defined.

Lemma github_stats_bad_profile_witness :
  (github_stats sample_int sample_getenv
     (sample_upstream_with (MkResponse 200 "<html>" None)
        (Responded (MkResponse 403 "rate limit exceeded" None)))
     "octocat" []).1 = Raise (Unhandled "JSONDecodeError").
Proof.
  apply (github_stats_bad_profile sample_int sample_getenv _ "octocat" []
           (MkResponse 200 "<html>" None)
           (MkResponse 403 "rate limit exceeded" None));
    try reflexivity.
  discriminate.
Defined.

Lemma github_requests_headers_witness :
  headers (profile_request sample_getenv "octocat")
    = {[ "Accept" := "application/vnd.github+json" ]} ∧
  timeout (profile_request sample_getenv "octocat") = 10.
Proof.
  destruct (github_requests_headers sample_int sample_getenv sample_upstream)
    as (_ & _ & _ & Hall).
  destruct (Hall "octocat" None (profile_request sample_getenv "octocat"))
    as [Hheaders Htimeout]; [left; vm_compute; left|].
  split; [rewrite Hheaders; reflexivity | exact Htimeout].
Defined.

Lemma github_repos_unreachable_witness :
  (github_repos sample_getenv sample_offline "octocat" None []).1
    = Raise (Unhandled "ConnectionError").
Proof.
  destruct (github_repos_unreachable sample_getenv sample_offline "octocat" None []
              "ConnectionError") as [Hrun _]; [reflexivity|].
  rewrite Hrun. reflexivity.
Defined.


Lemma repo_projection_idempotent_witness :
  repo_projection (PDict (projection_of {[ "name" := PStr "notes" ]}))
    = Ok (projection_of {[ "name" := PStr "notes" ]}).
Proof.
  apply (repo_projection_idempotent {[ "name" := PStr "notes" ]}). reflexivity.
Defined.

Lemma repo_projection_missing_witness :
  projection_of {[ "name" := PStr "notes" ]} !! "topics" = Some (PList []) ∧
  projection_of {[ "name" := PStr "notes" ]} !! "language" = Some PNone.
Proof.
  destruct (repo_projection_missing {[ "name" := PStr "notes" ]}
              (projection_of {[ "name" := PStr "notes" ]}))
    as (Htopics & _ & Hother); [reflexivity|].
  split; [apply Htopics; reflexivity|].
  apply Hother; [|discriminate|reflexivity].
  unfold projection_fields. set_solver.
Defined.

Lemma github_stats_agrees_with_listing_witness :
  ∃ listing stats,
    (github_repos sample_getenv sample_upstream "octocat" (Some 250) []).1 = Ok listing ∧
    (github_stats sample_int sample_getenv sample_upstream "octocat" []).1 = Ok stats ∧
    stats !! "stars" = Some (PInt (total_stars listing)).
Proof.
  destruct (github_stats_agrees_with_listing sample_int sample_getenv sample_upstream
              "octocat" 250 [] [] sample_profile_response sample_profile
              (MkResponse 200 "(repositories)" (Some (PList (PDict <$> sample_repos))))
              sample_repos)
    as (listing & stats & Hlist & Hstats & Hsum);
    [lia | reflexivity | reflexivity | reflexivity | reflexivity | reflexivity
    | reflexivity | | ].
  - constructor; [right; exists 5; reflexivity|].
    constructor; [left; reflexivity | constructor].
  - exists listing, stats. rewrite Hlist. repeat split; assumption.
Defined.

Lemma no_internal_id_in_views_witness :
  ∃ d', get_blog sample_str sample_store "hello" = Ok (Some d') ∧ d' !! "_id" = None.
Proof.
  destruct (proj2 (no_internal_id_in_views sample_str sample_store) "hello"
              (serialize_doc sample_str (Some sample_post)))
    as (d' & Hview & Hid); [reflexivity|].
  exists d'. split; [|exact Hid].
  change (get_blog sample_str sample_store "hello")
    with (Ok (serialize_doc sample_str (Some sample_post))).
  rewrite Hview. reflexivity.
Defined.

Lemma get_blog_ignores_published_witness :
  get_blog sample_str sample_store "draft" = Ok (serialize_doc sample_str (Some sample_draft)) ∧
  serialize_doc sample_str (Some sample_draft) ∉ list_blog sample_str sample_store None None.
Proof.
  destruct (get_blog_ignores_published sample_str sample_store "draft"
              [] sample_draft [sample_post])
    as [Hget Hhidden]; [reflexivity | constructor | reflexivity | reflexivity |].
  split; [exact Hget | apply Hhidden].
Defined.

Lemma create_route_stores_witness :
  ∃ _id st',
    create_route (Some sample_store) (NewProject sample_project)
      = (Ok {[ "id" := PStr _id ]}, Some st') ∧
    collection st' "project" = [<["_id" := PObjectId _id]> (Project_dump sample_project)] ∧
    collection st' "blogpost" = collection sample_store "blogpost".
Proof.
  destruct (create_route_stores sample_store (NewProject sample_project))
    as (_id & st' & Hrun & Hcoll & Hother).
  exists _id, st'. split; [exact Hrun|]. split; [exact Hcoll|].
  apply Hother. discriminate.
Defined.

Lemma create_then_list_witness :
  ∃ _id st',
    create_route (Some sample_store) (NewProject sample_project)
      = (Ok {[ "id" := PStr _id ]}, Some st') ∧
    list_route sample_str st' Projects None (Some 10)
      = [Some (<["id" := PStr _id]> (Project_dump sample_project))].
Proof.
  destruct (create_then_list sample_str sample_store (NewProject sample_project) 10)
    as (_id & st' & Hrun & Hlist);
    [reflexivity | discriminate | vm_compute; reflexivity |].
  exists _id, st'. split; [exact Hrun | exact Hlist].
Defined.

Lemma create_blog_draft_witness :
  ∃ _id st',
    create_blog (Some sample_store) sample_draft_post
      = (Ok {[ "id" := PStr _id ]}, Some st') ∧
    list_blog sample_str st' None None = list_blog sample_str sample_store None None ∧
    get_blog sample_str st' "fresh"
      = Ok (Some (<["id" := PStr _id]> (BlogPost_dump sample_draft_post))).
Proof.
  destruct (create_blog_draft sample_str sample_store "Fresh" "fresh"
              None None None None None)
    as (_id & st' & Hrun & Hlist & Hget).
  - reflexivity.
  - constructor; [vm_compute; discriminate|].
    constructor; [vm_compute; discriminate | constructor].
  - exists _id, st'. split; [exact Hrun|]. split; [apply Hlist | exact Hget].
Defined.

Lemma create_store_unreachable_witness :
  post_contact sample_email None (PDict sample_contact)
    = (Raise (Unhandled "StorageUnavailable"), None).
Proof.
  destruct (proj2 (create_store_unreachable sample_email) (PDict sample_contact)
              (MkContactMessage "Ada" "ada@example.org" "Hello" None None))
    as [Hrun _]; [reflexivity|].
  exact Hrun.
Defined.

Lemma contact_is_write_only_witness :
  ∃ st',
    (post_contact sample_email (Some sample_store) (PDict sample_contact)).2 = Some st' ∧
    list_route sample_str st' Blog None None
      = list_route sample_str sample_store Blog None None.
Proof.
  destruct (contact_is_write_only sample_str sample_email sample_store
              (PDict sample_contact)
              (post_contact sample_email (Some sample_store) (PDict sample_contact)).1
              (post_contact sample_email (Some sample_store) (PDict sample_contact)).2)
    as (st' & Hdb & Hlist & _); [reflexivity|].
  exists st'. split; [exact Hdb | apply Hlist].
Defined.

Lemma ContactMessage_fields_witness :
  validate_ContactMessage sample_email (PDict sample_contact)
    = inr (MkContactMessage "Ada" "ada@example.org" "Hello" None None) ∧
  ∃ errs, validate_ContactMessage sample_email (PDict ∅) = inl errs ∧
          FieldError "message" Missing ∈ errs.
Proof.
  split.
  - apply (proj2 (ContactMessage_fields sample_email sample_contact)
             "Ada" "ada@example.org" "ada@example.org" "Hello");
      try reflexivity; left; reflexivity.
  - apply (proj1 (ContactMessage_fields sample_email ∅) "message");
      [|reflexivity].
    apply elem_of_cons. right. apply elem_of_cons. right. left.
Defined.
